(** * The Inner Circle: login, registration, membership and message routes

    A shallow embedding of the Express application in [index.js] and of its
    router [routes/auth.js]: the route handlers, the express-validator
    chains in front of them, the passport local strategy and the Prisma
    calls they make, followed by the properties of the access rules that
    the specification states.

    Strings hold ASCII text; the JavaScript notions used by the handlers
    ([trim], [parseInt], truthiness, [===]) are written out on them. A body
    field, a route parameter or an environment variable is a string or is
    absent, as an HTML form sends it. Of the libraries, what the routes
    rely on is modelled: express-validator's chains write the result of a
    sanitizer back into [req.body], Prisma's [create], [update] and [delete]
    reject on a constraint or a missing record, and [bcrypt], [isEmail] and
    [normalizeEmail] are parameters. *)

From Stdlib Require Import String Ascii List ZArith Bool Lia.
From Stdlib Require Import Sorting.Permutation Sorting.Sorted.
Import ListNotations.
Local Open Scope string_scope.
Local Open Scope Z_scope.

(** ** JavaScript strings *)

Module JS.

(** The values that reach the handlers through [req.body], [req.params]
    and [process.env]: strings, [undefined] for an absent key, [null], and
    the [false] that a sanitizer can leave in a field. *)
Inductive value : Type :=
| Undefined
| Null
| Bool (b : bool)
| Str (s : string).

(** [!!v] *)
Definition truthy (v : value) : bool :=
  match v with
  | Str (String _ _) => true
  | Bool b => b
  | _ => false
  end.

(** [a === b] *)
Definition strict_eq (a b : value) : bool :=
  match a, b with
  | Str x, Str y => String.eqb x y
  | Bool x, Bool y => Bool.eqb x y
  | Undefined, Undefined => true
  | Null, Null => true
  | _, _ => false
  end.

(** express-validator hands [toString(value)] to its standard validators
    and sanitizers: the empty string for [undefined] and [null]. *)
Definition toString (v : value) : string :=
  match v with
  | Str s => s
  | Bool true => "true"
  | Bool false => "false"
  | Undefined | Null => EmptyString
  end.

(** White space and line terminators, the class [\s]: TAB, LF, VT, FF, CR
    and SPACE. *)
Definition is_space (c : ascii) : bool :=
  let n := Z.of_nat (nat_of_ascii c) in
  (n =? 32) || ((9 <=? n) && (n <=? 13)).

Definition is_digit (c : ascii) : bool :=
  let n := Z.of_nat (nat_of_ascii c) in (48 <=? n) && (n <=? 57).

Definition is_lower (c : ascii) : bool :=
  let n := Z.of_nat (nat_of_ascii c) in (97 <=? n) && (n <=? 122).

Definition is_upper (c : ascii) : bool :=
  let n := Z.of_nat (nat_of_ascii c) in (65 <=? n) && (n <=? 90).

(** The characters the regular expression dot does not match. *)
Definition is_line_terminator (c : ascii) : bool :=
  let n := Z.of_nat (nat_of_ascii c) in (n =? 10) || (n =? 13).

Fixpoint trimStart (s : string) : string :=
  match s with
  | EmptyString => EmptyString
  | String c rest => if is_space c then trimStart rest else s
  end.

Fixpoint trimEnd (s : string) : string :=
  match s with
  | EmptyString => EmptyString
  | String c rest =>
      match trimEnd rest with
      | EmptyString => if is_space c then EmptyString else String c EmptyString
      | kept => String c kept
      end
  end.

(** [String.prototype.trim], and validator.js's [trim] without a
    character list. *)
Definition trim (s : string) : string := trimEnd (trimStart s).

Fixpoint forallb_string (p : ascii -> bool) (s : string) : bool :=
  match s with
  | EmptyString => true
  | String c rest => p c && forallb_string p rest
  end.

Fixpoint existsb_string (p : ascii -> bool) (s : string) : bool :=
  match s with
  | EmptyString => false
  | String c rest => p c || existsb_string p rest
  end.

(** The characters a run of dots can cross: the prefix of [s] before its
    first line terminator. *)
Fixpoint first_line (s : string) : string :=
  match s with
  | EmptyString => EmptyString
  | String c rest =>
      if is_line_terminator c then EmptyString else String c (first_line rest)
  end.

(** [s.replace(/c/g, by)] for a single character [c]. *)
Fixpoint replaceAll (c : ascii) (by_ : string) (s : string) : string :=
  match s with
  | EmptyString => EmptyString
  | String d rest =>
      if Ascii.eqb d c then by_ ++ replaceAll c by_ rest
      else String d (replaceAll c by_ rest)
  end.

(** The decimal digits at the front of [s], read as a number on top of
    [acc]; [seen] tells whether a digit was read. *)
Fixpoint digits (s : string) (acc : Z) (seen : bool) : option Z :=
  match s with
  | String c rest =>
      if is_digit c
      then digits rest (10 * acc + (Z.of_nat (nat_of_ascii c) - 48)) true
      else if seen then Some acc else None
  | EmptyString => if seen then Some acc else None
  end.

(** [parseInt(s, 10)]: leading white space is skipped, one sign is read,
    then the longest run of digits; [None] is [NaN]. The result is exact,
    as it is in JavaScript on the range of a record identifier. *)
Definition parseInt (s : string) : option Z :=
  match trimStart s with
  | String "-" rest => option_map Z.opp (digits rest 0 false)
  | String "+" rest => digits rest 0 false
  | t => digits t 0 false
  end.

End JS.

(** ** validator.js, as express-validator calls it *)

Module Validator.
Import JS.

Definition quot : ascii := ascii_of_nat 34.

(** The replacements of [escape], in the order it makes them: the
    ampersand first. *)
Definition escapes : list (ascii * string) :=
  [("&"%char, "&amp;"); (quot, "&quot;"); ("'"%char, "&#x27;");
   ("<"%char, "&lt;"); (">"%char, "&gt;"); ("/"%char, "&#x2F;");
   ("\"%char, "&#x5C;"); ("`"%char, "&#96;")].

(** [escape]: one global [replace] after the other. *)
Definition escape (s : string) : string :=
  fold_left (fun acc r => replaceAll (fst r) (snd r) acc) escapes s.


(** [isLength({ min, max })] *)
Definition isLength (min : nat) (max : option nat) (s : string) : bool :=
  let len := String.length s in
  (min <=? len)%nat &&
  match max with
  | Some m => (len <=? m)%nat
  | None => true
  end.

Definition nonempty (s : string) : bool :=
  match s with
  | EmptyString => false
  | String _ _ => true
  end.

(** [matches(/^[a-zA-Z\s]+$/)] *)
Definition matches_letters_spaces (s : string) : bool :=
  nonempty s &&
  forallb_string (fun c => is_lower c || is_upper c || is_space c) s.

(** [matches(/^[a-zA-Z0-9_]+$/)] *)
Definition matches_word (s : string) : bool :=
  nonempty s &&
  forallb_string
    (fun c => is_lower c || is_upper c || is_digit c || Ascii.eqb c "_") s.

(** [matches(/^(?=.*[a-z])(?=.*[A-Z])(?=.*\d)/)]: the three lookaheads
    start at the first character and a dot stops at a line terminator. *)
Definition matches_password (s : string) : bool :=
  let line := first_line s in
  existsb_string is_lower line &&
  existsb_string is_upper line &&
  existsb_string is_digit line.

(** One validator of a chain: its message is recorded when it fails. *)
Definition check (ok : bool) (msg : string) : list string :=
  if ok then [] else [msg].

End Validator.

(** ** The data model *)

Module User.
Record t : Type := mk {
  id : Z;
  first_name : string;
  last_name : string;
  username : string;
  email : string;
  password : string;
  is_admin : bool;
  is_member : bool
}.

Definition set_is_member (b : bool) (u : t) : t :=
  mk (id u) (first_name u) (last_name u) (username u) (email u)
     (password u) (is_admin u) b.
End User.

Module Message.
Record t : Type := mk {
  id : Z;
  title : string;
  content : string;
  created_at : Z;
  author_id : Z
}.
End Message.

(** What a rejected promise or a failing method call carries. *)
Inductive Exn : Type :=
| TypeError
| IllegalArguments
| PrismaError (code : string).

Inductive Result (A : Type) : Type :=
| Returned (a : A)
| Threw (e : Exn).
Arguments Returned {A} a.
Arguments Threw {A} e.

(** ** The Prisma client *)

Module Prisma.

(** Modelled from the spec: the Prisma schema ([prisma/schema.prisma],
    [database.sql]) is not part of the sources. The users table and the
    messages table are lists in insertion order, the identifiers come from
    one sequence per table, usernames and e-mails are unique, and a
    message's author must be an existing user. *)
Record DB : Type := mkDB {
  users : list User.t;
  messages : list Message.t;
  user_seq : Z;
  message_seq : Z
}.

(** [prisma.user.findUnique({ where: { id } })] *)
Definition user_findUnique (d : DB) (id : Z) : option User.t :=
  find (fun u => User.id u =? id) (users d).

(** [prisma.user.findFirst({ where: { OR: [{ username }, { email }] } })] *)
Definition user_findFirst (d : DB) (username email : string) : option User.t :=
  find (fun u => String.eqb (User.username u) username
                 || String.eqb (User.email u) email) (users d).

Record UserData : Type := mkUserData {
  first_name : string;
  last_name : string;
  username : string;
  email : string;
  password : string;
  is_admin : bool;
  is_member : bool
}.

(** [prisma.user.create({ data })]; P2002 is the unique constraint. *)
Definition user_create (d : DB) (data : UserData) : Result DB :=
  if existsb (fun u => String.eqb (User.username u) (username data)
                       || String.eqb (User.email u) (email data)) (users d)
  then Threw (PrismaError "P2002")
  else
    let id := user_seq d + 1 in
    Returned
      (mkDB (users d ++
               [User.mk id (first_name data) (last_name data) (username data)
                  (email data) (password data) (is_admin data)
                  (is_member data)])
            (messages d) id (message_seq d)).

(** The first record with the given [id], changed by [f]; [None] when no
    record has it. *)
Fixpoint update_where (id : Z) (f : User.t -> User.t) (l : list User.t)
    : option (list User.t) :=
  match l with
  | [] => None
  | u :: rest =>
      if User.id u =? id then Some (f u :: rest)
      else option_map (cons u) (update_where id f rest)
  end.

(** [prisma.user.update({ where: { id }, data: { is_member: true } })];
    P2025 is a missing record. *)
Definition user_update_is_member (d : DB) (id : Z) : Result DB :=
  match update_where id (User.set_is_member true) (users d) with
  | Some l => Returned (mkDB l (messages d) (user_seq d) (message_seq d))
  | None => Threw (PrismaError "P2025")
  end.

(** [prisma.message.create({ data: { title, content, author_id } })] at
    time [now]; P2003 is the foreign key. *)
Definition message_create (d : DB) (now : Z) (title content : string)
    (author_id : Z) : Result DB :=
  if existsb (fun u => User.id u =? author_id) (users d)
  then
    let id := message_seq d + 1 in
    Returned
      (mkDB (users d)
            (messages d ++ [Message.mk id title content now author_id])
            (user_seq d) id)
  else Threw (PrismaError "P2003").

(** [prisma.message.delete({ where: { id } })] *)
Definition message_delete (d : DB) (id : Z) : Result DB :=
  if existsb (fun m => Message.id m =? id) (messages d)
  then
    Returned
      (mkDB (users d)
            (filter (fun m => negb (Message.id m =? id)) (messages d))
            (user_seq d) (message_seq d))
  else Threw (PrismaError "P2025").

End Prisma.


(** ** Request bodies *)

Module LoginBody.
Record t : Type := mk {
  username : JS.value;
  password : JS.value
}.
End LoginBody.

Module RegisterBody.
Record t : Type := mk {
  first_name : JS.value;
  last_name : JS.value;
  username : JS.value;
  email : JS.value;
  password : JS.value;
  confirm_password : JS.value;
  admin_code : JS.value
}.
End RegisterBody.

Module MemberBody.
Record t : Type := mk {
  secret_code : JS.value
}.
End MemberBody.

Module MessageBody.
Record t : Type := mk {
  title : JS.value;
  text : JS.value
}.
End MessageBody.

(** ** Requests, responses and the handler monad *)

(** [process.env], as far as the routes read it. *)
Record Env : Type := mkEnv {
  ADMIN_SECRET_CODE : JS.value;
  MEMBER_SECRET_CODE : JS.value
}.

(** What [req.flash(key, value)] stores: a message, or the body of a
    registration form. *)
Inductive FlashValue : Type :=
| Text (msg : string)
| FormData (body : RegisterBody.t).

Inductive Response : Type :=
| redirect (url : string)
| render (view : string) (locals : list (string * JS.value))
| send (status : Z) (text : string).

(** The state a request runs in: the database, the user id that passport
    keeps in the session, [req.user], and the flash messages of the
    session. *)
Record Req : Type := mkReq {
  db : Prisma.DB;
  session : option Z;
  user : option User.t;
  flash : list (string * FlashValue)
}.

Definition set_db (d : Prisma.DB) (s : Req) : Req :=
  mkReq d (session s) (user s) (flash s).
Definition set_session (i : option Z) (s : Req) : Req :=
  mkReq (db s) i (user s) (flash s).
Definition set_user (u : option User.t) (s : Req) : Req :=
  mkReq (db s) (session s) u (flash s).
Definition set_flash (f : list (string * FlashValue)) (s : Req) : Req :=
  mkReq (db s) (session s) (user s) f.

(** A handler changes the request state and either returns or throws; what
    it did before throwing stays done. *)
Definition M (A : Type) : Type := Req -> Req * Result A.

Definition ret {A} (a : A) : M A := fun s => (s, Returned a).

Definition bind {A B} (c : M A) (k : A -> M B) : M B :=
  fun s =>
    match c s with
    | (s', Returned a) => k a s'
    | (s', Threw e) => (s', Threw e)
    end.

Definition throw {A} (e : Exn) : M A := fun s => (s, Threw e).

(** [try { body } catch (error) { handler }] *)
Definition try_catch {A} (body : M A) (handler : Exn -> M A) : M A :=
  fun s =>
    match body s with
    | (s', Returned a) => (s', Returned a)
    | (s', Threw e) => handler e s'
    end.

Declare Scope handler_scope.
Delimit Scope handler_scope with handler.
Notation "x <- c ;; k" := (bind c (fun x => k))
  (at level 61, c at next level, right associativity) : handler_scope.
Notation "c ;; k" := (bind c (fun _ => k))
  (at level 61, right associativity) : handler_scope.
Local Open Scope handler_scope.

(** [await] of a Prisma call that writes. *)
Definition prisma (op : Prisma.DB -> Result Prisma.DB) : M unit :=
  fun s =>
    match op (db s) with
    | Returned d => (set_db d s, Returned tt)
    | Threw e => (s, Threw e)
    end.

Definition get_db : M Prisma.DB := fun s => (s, Returned (db s)).

(** [req.flash(key, value)] *)
Definition req_flash (key : string) (v : FlashValue) : M unit :=
  fun s => (set_flash (flash s ++ [(key, v)]) s, Returned tt).

(** [req.user], whose fields the handlers read: a [TypeError] when there is
    none. *)
Definition req_user : M User.t :=
  fun s =>
    match user s with
    | Some u => (s, Returned u)
    | None => (s, Threw TypeError)
    end.

(** [v.trim()] *)
Definition js_trim (v : JS.value) : M string :=
  match v with
  | JS.Str s => ret (JS.trim s)
  | _ => throw TypeError
  end.

(** ** Middleware *)

(** [ensureLoggedIn]; [req.isAuthenticated()] is the presence of
    [req.user]. *)
Definition ensureLoggedIn (next : M Response) : M Response :=
  fun s =>
    match user s with
    | Some _ => next s
    | None => ret (redirect "/login") s
    end.

(** [passport.serializeUser] *)
Definition serializeUser (u : User.t) : Z := User.id u.

(** [passport.deserializeUser] *)
Definition deserializeUser (d : Prisma.DB) (id : Z) : option User.t :=
  Prisma.user_findUnique d id.

(** [passport.session()]: the session's user id is resolved again on every
    request; an id that resolves to nobody is dropped from the session. *)
Definition passport_session : M unit :=
  fun s =>
    match session s with
    | None => (set_user None s, Returned tt)
    | Some id =>
        match deserializeUser (db s) id with
        | Some u => (set_user (Some u) s, Returned tt)
        | None => (set_user None (set_session None s), Returned tt)
        end
    end.

(** The middleware that fills [res.locals]: reading the [error] and
    [successMessage] flashes removes them from the session. *)
Definition unread (f : list (string * FlashValue))
    : list (string * FlashValue) :=
  filter (fun kv => negb (String.eqb (fst kv) "error"
                          || String.eqb (fst kv) "successMessage")) f.

Definition locals_middleware : M unit :=
  fun s => (set_flash (unread (flash s)) s, Returned tt).

(** [req.logIn(user, callback)]: passport regenerates the session, so what
    was flashed in the old one is gone; the serialized user goes into the
    new session and the user into [req.user]. *)
Definition req_logIn (u : User.t) : M unit :=
  fun s =>
    (set_flash []
       (set_user (Some u) (set_session (Some (serializeUser u)) s)),
     Returned tt).

(** ** The validation chains

    Each chain runs its validators and sanitizers in order on
    [toString(value)]; a sanitizer writes its result back into [req.body];
    no chain bails out, so every failing validator leaves its message. *)

Module Chains.
Import JS Validator.

(** [POST /login]: [username] is trimmed, checked, then escaped. *)
Definition login (b : LoginBody.t) : LoginBody.t * list string :=
  let username := trim (toString (LoginBody.username b)) in
  let e1 := check (isLength 1 None username) "Username or email is required" in
  let username := escape username in
  let e2 := check (isLength 1 None (toString (LoginBody.password b)))
                  "Password is required" in
  (LoginBody.mk (Str username) (LoginBody.password b), (e1 ++ e2)%list).

(** [POST /become-member]: [secret_code] is trimmed, then checked. *)
Definition become_member (b : MemberBody.t) : MemberBody.t * list string :=
  let secret_code := trim (toString (MemberBody.secret_code b)) in
  (MemberBody.mk (Str secret_code),
   check (isLength 1 None secret_code) "Passcode is required").

Section Register.
Variable isEmail : string -> bool.
(** [normalizeEmail] answers [false] for an address it cannot normalise:
    that is [None]. *)
Variable normalizeEmail : string -> option string.

Definition sanitized_email (raw : JS.value) : JS.value :=
  match normalizeEmail (trim (toString raw)) with
  | Some e => Str e
  | None => Bool false
  end.

(** [POST /register] *)
Definition register (b : RegisterBody.t) : RegisterBody.t * list string :=
  let first_name := trim (toString (RegisterBody.first_name b)) in
  let e1 :=
    (check (isLength 2 (Some 50%nat) first_name)
          "First name must be between 2 and 50 characters"
    ++ (check (matches_letters_spaces first_name)
          "First name can only contain letters and spaces"))%list in
  let last_name := trim (toString (RegisterBody.last_name b)) in
  let e2 :=
    (check (isLength 2 (Some 50%nat) last_name)
          "Last name must be between 2 and 50 characters"
    ++ (check (matches_letters_spaces last_name)
          "Last name can only contain letters and spaces"))%list in
  let username := trim (toString (RegisterBody.username b)) in
  let e3 :=
    (check (isLength 3 (Some 30%nat) username)
          "Username must be between 3 and 30 characters"
    ++ (check (matches_word username)
          "Username can only contain letters, numbers, and underscores"))%list in
  let e4 :=
    check (isEmail (trim (toString (RegisterBody.email b))))
          "Please provide a valid email address" in
  let email := sanitized_email (RegisterBody.email b) in
  let password := RegisterBody.password b in
  let e5 :=
    (check (isLength 6 (Some 100%nat) (toString password))
          "Password must be at least 6 characters long"
    ++ (check (matches_password (toString password))
          "Password must contain at least one lowercase letter, one uppercase letter, and one number"))%list in
  let e6 :=
    check (strict_eq (RegisterBody.confirm_password b) password)
          "Passwords do not match" in
  (RegisterBody.mk (Str first_name) (Str last_name) (Str username) email
     password (RegisterBody.confirm_password b) (RegisterBody.admin_code b),
   (e1 ++ e2 ++ e3 ++ e4 ++ e5 ++ e6)%list).

End Register.
End Chains.

(** [errorMessages.join(". ")] *)
Fixpoint join (sep : string) (l : list string) : string :=
  match l with
  | [] => EmptyString
  | [x] => x
  | x :: rest => x ++ sep ++ join sep rest
  end.

(** ** An instance to run the routes on

    A configuration, stand-ins for the library functions the routes are
    parameterised by, and a database with three users and one message. *)

Module Sample.

Definition env : Env := mkEnv (JS.Str "crown") (JS.Str "abc").

Definition bcrypt_hash (password : string) (saltRounds : Z) : string :=
  "$2a$10$" ++ password.

Definition bcrypt_compare (password hash : string) : bool :=
  String.eqb ("$2a$10$" ++ password) hash.

Definition isEmail (s : string) : bool :=
  JS.existsb_string (fun c => Ascii.eqb c "@") s.

Definition normalizeEmail (s : string) : option string := Some s.

(** Neither member nor admin. *)
Definition alice : User.t :=
  User.mk 1 "Alice" "Liddell" "alice" "alice@x.com" "$2a$10$Secret1"
    false false.

(** A member. *)
Definition bob : User.t :=
  User.mk 2 "Bob" "Brien" "bob" "o'brien@x.com" "$2a$10$Secret2" false true.

(** An admin. *)
Definition carol : User.t :=
  User.mk 3 "Carol" "Cole" "carol" "carol@x.com" "$2a$10$Secret3" true true.

Definition database : Prisma.DB :=
  Prisma.mkDB [alice; bob; carol] [Message.mk 1 "Hello" "First post" 50 2] 3 1.

(** Sessions over [database]: nobody logged in, then each user. *)
Definition anonymous : Req := mkReq database None None [].
Definition as_alice : Req := mkReq database (Some 1) None [].
Definition as_bob : Req := mkReq database (Some 2) None [].
Definition as_carol : Req := mkReq database (Some 3) None [].

End Sample.

(** ** The pages and the message list

    The routes that render a page read the flash messages they show, and
    [GET /messages] reads the messages with their authors. *)

(** [req.flash(key)]: the values flashed under [key], in the order they
    were flashed; reading them removes them from the session. *)
Definition req_flash_read (key : string) : M (list FlashValue) :=
  fun s =>
    (set_flash (filter (fun kv => negb (String.eqb (fst kv) key)) (flash s)) s,
     Returned (map snd (filter (fun kv => String.eqb (fst kv) key) (flash s)))).

(** A flashed value as a condition: a message is true when it is not the
    empty string, a form always. *)
Definition flash_truthy (v : FlashValue) : bool :=
  match v with
  | Text msg => Validator.nonempty msg
  | FormData _ => true
  end.

(** One message as the dashboard receives it. *)
Module MessageView.
Record t : Type := mk {
  id : Z;
  title : string;
  text : string;
  timestamp : Z;
  user : option (string * string);
  is_admin : bool
}.
End MessageView.

(** What a page is rendered with: a plain value, the array that
    [req.flash(key)] returned, the first flashed form or the empty object
    ([None]), the list of messages. *)
Inductive Local : Type :=
| L_value (v : JS.value)
| L_flashed (msgs : list FlashValue)
| L_form (first : option FlashValue)
| L_messages (l : list MessageView.t).

Inductive Reply : Type :=
| plain (r : Response)
| page (view : string) (locals : list (string * Local)).

Module PrismaRead.

(** [m] put into a list that is ordered newest first, before the first
    message that is not newer than it. *)
Fixpoint insert_desc (m : Message.t) (l : list Message.t) : list Message.t :=
  match l with
  | [] => [m]
  | x :: rest =>
      if Message.created_at x <=? Message.created_at m then m :: x :: rest
      else x :: insert_desc m rest
  end.

(** [orderBy: { created_at: "desc" }]; messages of one instant stay in the
    order of the table. *)
Definition order_desc (l : list Message.t) : list Message.t :=
  fold_right insert_desc [] l.

(** [include: { author: { select: { first_name: true, last_name: true } } }] *)
Definition author (d : Prisma.DB) (m : Message.t) : option (string * string) :=
  option_map (fun u => (User.first_name u, User.last_name u))
    (Prisma.user_findUnique d (Message.author_id m)).

(** [prisma.message.findMany({ include, orderBy })] *)
Definition message_findMany (d : Prisma.DB)
    : list (Message.t * option (string * string)) :=
  map (fun m => (m, author d m)) (order_desc (Prisma.messages d)).

End PrismaRead.

(** [ensureLoggedIn] in front of a route that renders a page. *)
Definition ensureLoggedIn_page (next : M Reply) : M Reply :=
  fun s =>
    match user s with
    | Some _ => next s
    | None => ret (plain (redirect "/login")) s
    end.

(** [req.logout(callback)]: the user leaves the session and the request,
    passport regenerates the session, so what was flashed in the old one
    is gone, and the callback runs. *)
Definition req_logout : M unit :=
  fun s => (set_flash [] (set_user None (set_session None s)), Returned tt).

(** [GET /] *)
Definition get_home : M Reply :=
  ret (page "index" [("title", L_value (JS.Str "Home"))]).

(** [GET /register] *)
Definition get_register : M Reply :=
  error <- req_flash_read "error" ;;
  formData <- req_flash_read "formData" ;;
  ret (page "register"
         [("title", L_value (JS.Str "Register"));
          ("error", L_flashed error);
          ("formData",
           L_form (match formData with
                   | first :: _ => if flash_truthy first then Some first else None
                   | [] => None
                   end))]).

(** [GET /login] *)
Definition get_login : M Reply :=
  successMessage <- req_flash_read "success" ;;
  error <- req_flash_read "error" ;;
  ret (page "login"
         [("title", L_value (JS.Str "Login"));
          ("successMessage", L_flashed successMessage);
          ("error", L_flashed error)]).

(** [GET /become-member] *)
Definition get_become_member : M Reply :=
  ensureLoggedIn_page
    (error <- req_flash_read "error" ;;
     successMessage <- req_flash_read "successMessage" ;;
     ret (page "become-member"
            [("title", L_value (JS.Str "Become a Member"));
             ("error", L_flashed error);
             ("successMessage", L_flashed successMessage)])).

(** [GET /messages] *)
Definition get_messages : M Reply :=
  ensureLoggedIn_page
    (try_catch
       (d <- get_db ;;
        let messagesFromDb := PrismaRead.message_findMany d in
        messages <-
          match messagesFromDb with
          | [] => ret []
          | _ :: _ =>
              u <- req_user ;;
              ret (map (fun msg =>
                          MessageView.mk (Message.id (fst msg))
                            (Message.title (fst msg))
                            (Message.content (fst msg))
                            (Message.created_at (fst msg))
                            (snd msg) (User.is_admin u))
                     messagesFromDb)
          end ;;
        successMessage <- req_flash_read "successMessage" ;;
        error <- req_flash_read "error" ;;
        ret (page "dashboard"
               [("title", L_value (JS.Str "Messages"));
                ("messages", L_messages messages);
                ("successMessage", L_flashed successMessage);
                ("error", L_flashed error)]))
       (fun _ =>
          ret (page "dashboard"
                 [("title", L_value (JS.Str "Messages"));
                  ("error",
                   L_value
                     (JS.Str "An error occurred while fetching messages. Please try again."));
                  ("messages", L_messages []);
                  ("successMessage", L_value JS.Null)]))).

(** [POST /logout] *)
Definition post_logout : M Reply :=
  req_logout ;;
  req_flash "successMessage"
    (Text "You have been logged out successfully.") ;;
  ret (plain (redirect "/")).

(** [GET /self-ping] *)
Definition get_self_ping : M Reply :=
  ret (plain (send 200 "Pinged self.")).

(** The requests for these routes. *)
Inductive PageRequest : Type :=
| GET_home
| GET_register
| GET_login
| GET_become_member
| GET_messages
| POST_logout
| GET_self_ping.

Definition page_route (r : PageRequest) : M Reply :=
  match r with
  | GET_home => get_home
  | GET_register => get_register
  | GET_login => get_login
  | GET_become_member => get_become_member
  | GET_messages => get_messages
  | POST_logout => post_logout
  | GET_self_ping => get_self_ping
  end.

(** What the [res.locals] middleware leaves in [res.locals]. *)
Definition res_locals_error (s : Req) : list FlashValue :=
  map snd (filter (fun kv => String.eqb (fst kv) "error") (flash s)).

(** A second instance: a database whose messages were written at different
    times, and a session with flashes waiting. *)
Module Board.

Definition messages : list Message.t :=
  [Message.mk 1 "Hello" "First post" 50 2;
   Message.mk 2 "Later" "Third post" 90 3;
   Message.mk 3 "Then" "Second post" 70 2].

Definition database : Prisma.DB :=
  Prisma.mkDB (Prisma.users Sample.database) messages 3 3.

Definition as_carol : Req := mkReq database (Some 3) None [].

(** After a failed login and a registration. *)
Definition flashed : Req :=
  mkReq database None None
    [("error", Text "Invalid password");
     ("success", Text "Registration successful! Please log in with your credentials.")].




(** A stand-in for [normalizeEmail] that answers [false], as validator.js
    does for a Gmail address that is nothing but a sub-address, for an
    address that starts with a plus sign. *)
Definition normalizeEmail (s : string) : option string :=
  match s with
  | String "+" _ => None
  | _ => Some s
  end.

End Board.

(** ** The routes *)

Section Routes.

Variable env : Env.
(** [bcrypt.hash(password, saltRounds)] and [bcrypt.compare(password, hash)] *)
Variable bcrypt_hash : string -> Z -> string.
Variable bcrypt_compare : string -> string -> bool.
Variable isEmail : string -> bool.
Variable normalizeEmail : string -> option string.

(** What the verify callback hands to [done]. *)
Inductive Verified : Type :=
| done_error (e : Exn)
| done_fail (message : string)
| done_user (u : User.t).

(** The verify callback of the [LocalStrategy]: the user is looked up
    first; [bcrypt.compare] rejects a password that is not a string, which
    the callback catches and hands to [done]. *)
Definition verify (d : Prisma.DB) (username : string) (password : JS.value)
    : Verified :=
  match Prisma.user_findFirst d username username with
  | None => done_fail "User not found"
  | Some user =>
      match password with
      | JS.Str password =>
          if negb (bcrypt_compare password (User.password user))
          then done_fail "Invalid password"
          else done_user user
      | _ => done_error IllegalArguments
      end
  end.

(** [LocalStrategy.authenticate]: the credentials are read from the body
    and refused when one of them is missing. *)
Definition local_strategy (d : Prisma.DB) (b : LoginBody.t) : Verified :=
  let username := LoginBody.username b in
  let password := LoginBody.password b in
  if negb (JS.truthy username) || negb (JS.truthy password)
  then done_fail "Missing credentials"
  else
    match username with
    | JS.Str username => verify d username password
    | _ => done_error TypeError
    end.

(** [POST /login] *)
Definition post_login (body : LoginBody.t) : M Response :=
  let (body, errors) := Chains.login body in
  match errors with
  | _ :: _ =>
      req_flash "error" (Text (join ". " errors)) ;;
      ret (redirect "/login")
  | [] =>
      d <- get_db ;;
      match local_strategy d body with
      | done_error _ =>
          req_flash "error" (Text "An error occurred during login.") ;;
          ret (redirect "/login")
      | done_fail message =>
          req_flash "error"
            (Text (if JS.truthy (JS.Str message) then message
                   else "Login failed.")) ;;
          ret (redirect "/login")
      | done_user u =>
          req_logIn u ;;
          req_flash "successMessage" (Text "Login successful!") ;;
          ret (redirect "/messages")
      end
  end.

(** [bcrypt.hash] refuses a password that is not a string. *)
Definition hash (password : JS.value) (saltRounds : Z) : M string :=
  match password with
  | JS.Str p => ret (bcrypt_hash p saltRounds)
  | _ => throw IllegalArguments
  end.

(** [POST /register] *)
Definition post_register (body : RegisterBody.t) : M Response :=
  let (body, errors) := Chains.register isEmail normalizeEmail body in
  try_catch
    (match errors with
     | msg :: _ =>
         req_flash "error" (Text msg) ;;
         req_flash "formData" (FormData body) ;;
         ret (redirect "/register")
     | [] =>
         username <- js_trim (RegisterBody.username body) ;;
         email <- js_trim (RegisterBody.email body) ;;
         d <- get_db ;;
         match Prisma.user_findFirst d username email with
         | Some _ =>
             req_flash "error"
               (Text "Username or email already exists. Please choose different ones.") ;;
             req_flash "formData" (FormData body) ;;
             ret (redirect "/register")
         | None =>
             let isAdmin :=
               JS.strict_eq (RegisterBody.admin_code body)
                            (ADMIN_SECRET_CODE env) in
             let isMember := isAdmin in
             let saltRounds := 10 in
             hashedPassword <- hash (RegisterBody.password body) saltRounds ;;
             first_name <- js_trim (RegisterBody.first_name body) ;;
             last_name <- js_trim (RegisterBody.last_name body) ;;
             username <- js_trim (RegisterBody.username body) ;;
             email <- js_trim (RegisterBody.email body) ;;
             prisma (fun d =>
               Prisma.user_create d
                 (Prisma.mkUserData first_name last_name username email
                    hashedPassword isAdmin isMember)) ;;
             req_flash "success"
               (Text "Registration successful! Please log in with your credentials.") ;;
             ret (redirect "/login")
         end
     end)
    (fun _ =>
       req_flash "error"
         (Text "An error occurred during registration. Please try again.") ;;
       req_flash "formData" (FormData body) ;;
       ret (redirect "/register")).

(** [POST /become-member] *)
Definition post_become_member (body : MemberBody.t) : M Response :=
  ensureLoggedIn
    (let (body, errors) := Chains.become_member body in
     match errors with
     | msg :: _ =>
         req_flash "error" (Text msg) ;;
         ret (redirect "/become-member")
     | [] =>
         try_catch
           (let secret_code := MemberBody.secret_code body in
            if negb (JS.strict_eq secret_code (MEMBER_SECRET_CODE env))
            then
              req_flash "error" (Text "Incorrect passcode. Please try again.") ;;
              ret (redirect "/become-member")
            else
              u <- req_user ;;
              prisma (fun d => Prisma.user_update_is_member d (User.id u)) ;;
              u <- req_user ;;
              (fun s => (set_user (Some (User.set_is_member true u)) s,
                         Returned tt)) ;;
              req_flash "successMessage"
                (Text "Congratulations! You are now a full member.") ;;
              ret (redirect "/messages"))
           (fun _ =>
              req_flash "error"
                (Text "An error occurred while updating your membership.") ;;
              ret (redirect "/become-member"))
     end).

(** [GET /create-message] *)
Definition get_create_message : M Response :=
  ensureLoggedIn
    (u <- req_user ;;
     if negb (User.is_member u)
     then
       req_flash "error"
         (Text "You need to become a member first to create messages.") ;;
       ret (redirect "/become-member")
     else
       ret (render "create-message"
              [("title", JS.Str "Create Message"); ("error", JS.Null)])).

(** [POST /create-message], at time [now] *)
Definition post_create_message (now : Z) (body : MessageBody.t) : M Response :=
  ensureLoggedIn
    (u <- req_user ;;
     if negb (User.is_member u)
     then ret (send 403 "Only members can create messages.")
     else
       let title := MessageBody.title body in
       let text := MessageBody.text body in
       if negb (JS.truthy title) || negb (JS.truthy text)
       then
         ret (render "create-message"
                [("title", JS.Str "Create Message");
                 ("error",
                  JS.Str "Both title and message content are required.")])
       else
         try_catch
           (title <- js_trim title ;;
            content <- js_trim text ;;
            u <- req_user ;;
            prisma (fun d =>
              Prisma.message_create d now title content (User.id u)) ;;
            req_flash "successMessage" (Text "Message created successfully!") ;;
            ret (redirect "/messages"))
           (fun _ =>
              ret (render "create-message"
                     [("title", JS.Str "Create Message");
                      ("error",
                       JS.Str "Failed to create message. Please try again.")]))).

(** [GET /get-the-code] *)
Definition get_the_code : M Response :=
  ret (render "get-the-code"
         [("title", JS.Str "Get the Code");
          ("memberCode", MEMBER_SECRET_CODE env)]).

(** [POST /delete-message/:id] *)
Definition post_delete_message (id : string) : M Response :=
  ensureLoggedIn
    (try_catch
       (u <- req_user ;;
        if negb (User.is_admin u)
        then ret (send 403 "You are not authorized to delete messages.")
        else
          match JS.parseInt id with
          | None =>
              req_flash "error" (Text "Invalid message ID.") ;;
              ret (redirect "/messages")
          | Some messageId =>
              prisma (fun d => Prisma.message_delete d messageId) ;;
              req_flash "successMessage" (Text "Message deleted successfully.") ;;
              ret (redirect "/messages")
          end)
       (fun _ =>
          req_flash "error" (Text "Error deleting message.") ;;
          ret (redirect "/messages"))).

(** The requests the application routes, with what each carries. *)
Inductive Request : Type :=
| POST_login (body : LoginBody.t)
| POST_register (body : RegisterBody.t)
| POST_become_member (body : MemberBody.t)
| GET_create_message
| POST_create_message (body : MessageBody.t)
| GET_get_the_code
| POST_delete_message (id : string).

Definition route (now : Z) (r : Request) : M Response :=
  match r with
  | POST_login body => post_login body
  | POST_register body => post_register body
  | POST_become_member body => post_become_member body
  | GET_create_message => get_create_message
  | POST_create_message body => post_create_message now body
  | GET_get_the_code => get_the_code
  | POST_delete_message id => post_delete_message id
  end.

(** One request through the application: the session middleware, the
    [res.locals] middleware, then the route. *)
Definition app (now : Z) (r : Request) : M Response :=
  passport_session ;;
  locals_middleware ;;
  route now r.

(** * Properties *)

(** The session of [s] resolves to the user [u]: the request is made by the
    authenticated principal [u]. *)
Definition principal (s : Req) (u : User.t) : Prop :=
  exists id, session s = Some id /\ deserializeUser (db s) id = Some u.

(** The state a route starts in: after [passport.session()] and the
    [res.locals] middleware. *)
Definition arrived (s : Req) : Req :=
  fst ((passport_session ;; locals_middleware) s).

(** The state a route starts in when the principal is [u]. *)
Definition entered (s : Req) (u : option User.t) : Req :=
  mkReq (db s) (match u with Some _ => session s | None => None end) u
        (unread (flash s)).

(** Every user who is an admin is a member. *)
Definition admin_implies_member (d : Prisma.DB) : Prop :=
  forall u, In u (Prisma.users d) ->
            User.is_admin u = true -> User.is_member u = true.

(** One request through the application, whichever route it is for. *)
Definition app_pages (r : PageRequest) : M Reply :=
  passport_session ;;
  locals_middleware ;;
  page_route r.

Definition serve (now : Z) (r : Request + PageRequest) : M Reply :=
  match r with
  | inl r => answer <- app now r ;; ret (plain answer)
  | inr r => app_pages r
  end.

(** The routes that have [ensureLoggedIn] in front of them. *)
Definition gated (r : Request + PageRequest) : bool :=
  match r with
  | inl (POST_become_member _) | inl GET_create_message
  | inl (POST_create_message _) | inl (POST_delete_message _)
  | inr GET_become_member | inr GET_messages => true
  | _ => false
  end.

(** Nobody is logged in: the session resolves to no user. *)
Definition anonymous (s : Req) : Prop := forall u, ~ principal s u.

(** A user record after a request: as it was, or promoted to member. *)
Definition kept_or_promoted (u u' : User.t) : Prop :=
  u' = u \/ u' = User.set_is_member true u.

(** A message as [GET /messages] shows it to the principal [u]. *)
Definition view_of (d : Prisma.DB) (u : User.t) (m : Message.t)
    : MessageView.t :=
  MessageView.mk (Message.id m) (Message.title m) (Message.content m)
    (Message.created_at m) (PrismaRead.author d m) (User.is_admin u).

(** No view is older than one that follows it. *)
Definition newest_first (a b : MessageView.t) : Prop :=
  MessageView.timestamp b <= MessageView.timestamp a.

(** The tail of an [:id] that [parseInt] does not read: nothing, or text
    that starts with something else than a digit. *)
Definition not_a_digit_first (tail : string) : bool :=
  match tail with
  | EmptyString => true
  | String c _ => negb (JS.is_digit c)
  end.





Lemma app_principal now r s u :
  principal s u -> app now r s = route now r (entered s (Some u)).
Proof.
  intros [id [Hs Hu]]. destruct s as [d ss us fl]. simpl in Hs, Hu. subst ss.
  unfold app, bind, passport_session, locals_middleware, entered.
  simpl. rewrite Hu. reflexivity.
Qed.

(** C2. [GET /get-the-code] has no gate: whoever asks, whatever the session
    holds (nothing, for an anonymous client), the answer is the
    [get-the-code] page, rendered with [memberCode] set to the member
    promotion secret of the process. *)
Theorem get_the_code_is_public : forall now s,
  snd (app now GET_get_the_code s) =
    Returned (render "get-the-code"
                [("title", JS.Str "Get the Code");
                 ("memberCode", MEMBER_SECRET_CODE env)]).
Proof.
  intros now s. unfold app, bind, passport_session.
  destruct (session s) as [id|]; [destruct (deserializeUser (db s) id)|];
    reflexivity.
Qed.

(** ** Strings and validators *)

Lemma isLength_min_nonempty n s :
  Validator.isLength (S n) None s = true -> Validator.nonempty s = true.
Proof. destruct s; [discriminate | reflexivity]. Qed.

Lemma truthy_Str s : JS.truthy (JS.Str s) = Validator.nonempty s.
Proof. destruct s; reflexivity. Qed.

Lemma replaceAll_nonempty c r s :
  Validator.nonempty r = true -> Validator.nonempty s = true ->
  Validator.nonempty (JS.replaceAll c r s) = true.
Proof.
  intros Hr Hs. destruct s as [|d rest]; [discriminate|]. simpl.
  destruct (Ascii.eqb d c); [|reflexivity].
  destruct r; [discriminate | reflexivity].
Qed.

Lemma escape_nonempty s :
  Validator.nonempty s = true -> Validator.nonempty (Validator.escape s) = true.
Proof.
  unfold Validator.escape.
  assert (Hall : forall r, In r Validator.escapes ->
                           Validator.nonempty (snd r) = true).
  { intros r Hin. simpl in Hin.
    repeat (destruct Hin as [<- | Hin]; [reflexivity|]). contradiction. }
  revert s Hall. induction Validator.escapes as [|r table IH]; intros s Hall Hs.
  - exact Hs.
  - simpl. apply IH.
    + intros r' Hin. apply Hall. right. exact Hin.
    + apply replaceAll_nonempty; [apply Hall; left; reflexivity | exact Hs].
Qed.

Lemma check_nil ok msg : Validator.check ok msg = [] -> ok = true.
Proof. destruct ok; [reflexivity | discriminate]. Qed.

(** ** Login *)

(** A login that passes the chain reaches the verify callback with the
    escaped identifier: the missing-credentials answer is out of reach. *)
Lemma post_login_valid body p s :
  LoginBody.password body = JS.Str p ->
  snd (Chains.login body) = [] ->
  post_login body s =
    let identifier :=
      Validator.escape (JS.trim (JS.toString (LoginBody.username body))) in
    match Prisma.user_findFirst (db s) identifier identifier with
    | None =>
        (set_flash (flash s ++ [("error", Text "User not found")]) s,
         Returned (redirect "/login"))
    | Some usr =>
        if bcrypt_compare p (User.password usr)
        then
          (set_flash [("successMessage", Text "Login successful!")]
             (set_user (Some usr) (set_session (Some (User.id usr)) s)),
           Returned (redirect "/messages"))
        else
          (set_flash (flash s ++ [("error", Text "Invalid password")]) s,
           Returned (redirect "/login"))
    end.
Proof.
  intros Hp Hv. unfold post_login.
  destruct (Chains.login body) as [b errors] eqn:Hc. simpl in Hv. subst errors.
  unfold Chains.login in Hc. rewrite Hp in Hc.
  injection Hc as Hb He.
  apply app_eq_nil in He. destruct He as [He1 He2].
  apply check_nil, isLength_min_nonempty, escape_nonempty in He1.
  apply check_nil, isLength_min_nonempty in He2.
  subst b. unfold bind, get_db, local_strategy. cbn [LoginBody.username LoginBody.password].
  rewrite !truthy_Str, He1. simpl in He2. rewrite He2. cbn [negb orb].
  unfold verify.
  destruct (Prisma.user_findFirst (db s) _ _) as [usr|]; cbn zeta.
  - destruct (bcrypt_compare p (User.password usr)); reflexivity.
  - reflexivity.
Qed.

Lemma app_arrived now r s : app now r s = route now r (arrived s).
Proof.
  unfold app, arrived, bind.
  destruct (passport_session s) as [s1 [[]|e]] eqn:H1.
  - reflexivity.
  - unfold passport_session in H1.
    destruct (session s); [destruct (deserializeUser (db s) z)|]; discriminate.
Qed.

Lemma arrived_db s : db (arrived s) = db s.
Proof.
  unfold arrived, bind, passport_session.
  destruct (session s) as [id|]; [destruct (deserializeUser (db s) id)|];
    reflexivity.
Qed.

Lemma arrived_flash s : flash (arrived s) = unread (flash s).
Proof.
  unfold arrived, bind, passport_session.
  destruct (session s) as [id|]; [destruct (deserializeUser (db s) id)|];
    reflexivity.
Qed.

Lemma arrived_principal s u : principal s u -> arrived s = entered s (Some u).
Proof.
  intros [id [Hs Hu]]. unfold arrived, bind, passport_session.
  rewrite Hs, Hu. destruct s; simpl in *. subst. reflexivity.
Qed.

(** C1, as the code has it. A login that passes the form validation and
    fails is answered by a redirect to [/login] in both cases, with nothing
    else changed, but the flashed message tells the cases apart: it is
    [User not found] when no user has the identifier as username or e-mail,
    and [Invalid password] when a user has and the password does not
    verify. *)
Theorem login_failure_messages : forall now body p s,
  LoginBody.password body = JS.Str p ->
  snd (Chains.login body) = [] ->
  let identifier :=
    Validator.escape (JS.trim (JS.toString (LoginBody.username body))) in
  (Prisma.user_findFirst (db s) identifier identifier = None ->
   app now (POST_login body) s =
     (set_flash (unread (flash s) ++ [("error", Text "User not found")])
        (arrived s),
      Returned (redirect "/login")))
  /\ (forall usr,
      Prisma.user_findFirst (db s) identifier identifier = Some usr ->
      bcrypt_compare p (User.password usr) = false ->
      app now (POST_login body) s =
        (set_flash (unread (flash s) ++ [("error", Text "Invalid password")])
           (arrived s),
         Returned (redirect "/login"))).
Proof.
  intros now body p s Hp Hv identifier. subst identifier.
  rewrite app_arrived. unfold route.
  rewrite (post_login_valid _ _ _ Hp Hv). cbv zeta.
  rewrite arrived_db, arrived_flash. split.
  - intros Hnone. rewrite Hnone. reflexivity.
  - intros usr Hsome Hcmp. rewrite Hsome, Hcmp. reflexivity.
Qed.


(** ** What [escape] does to a string *)








(** ** What [trim] does to a string *)







(** ** What [escape] leaves alone *)




(** ** The user a lookup finds *)





(** A route entered by an authenticated principal passes [ensureLoggedIn]. *)
Lemma ensureLoggedIn_entered next s u :
  ensureLoggedIn next (entered s (Some u)) = next (entered s (Some u)).
Proof. reflexivity. Qed.

(** C4, as the code has it. For an authenticated principal who is not a
    member, [GET /create-message] redirects to [/become-member] and flashes
    the explanation; [POST /create-message] answers 403 with a text and no
    redirect; neither touches the database, so no message is persisted. *)
Theorem create_message_non_member : forall now body s u,
  principal s u ->
  User.is_member u = false ->
  app now GET_create_message s =
    (set_flash
       (unread (flash s) ++
          [("error",
            Text "You need to become a member first to create messages.")])
       (entered s (Some u)),
     Returned (redirect "/become-member"))
  /\ app now (POST_create_message body) s =
       (entered s (Some u),
        Returned (send 403 "Only members can create messages."))
  /\ db (fst (app now GET_create_message s)) = db s
  /\ db (fst (app now (POST_create_message body) s)) = db s.
Proof.
  intros now body s u Hp Hm.
  rewrite !(app_principal _ _ _ _ Hp).
  unfold route, get_create_message, post_create_message.
  rewrite !ensureLoggedIn_entered.
  unfold bind, req_user. simpl. rewrite Hm. simpl.
  repeat split; reflexivity.
Qed.

(** C9. An admin's [POST /delete-message/:id] whose [id] does not parse as
    a number, or names no message, returns normally with a redirect to
    [/messages] and an [error] flash, and leaves the database as it was; a
    principal who is not an admin gets the 403 answer. *)
Theorem delete_message_fails_softly : forall now id s u,
  principal s u ->
  (User.is_admin u = true ->
   JS.parseInt id = None ->
   app now (POST_delete_message id) s =
     (set_flash (unread (flash s) ++ [("error", Text "Invalid message ID.")])
        (entered s (Some u)),
      Returned (redirect "/messages")))
  /\ (User.is_admin u = true ->
      forall messageId,
      JS.parseInt id = Some messageId ->
      (forall m, In m (Prisma.messages (db s)) -> Message.id m <> messageId) ->
      app now (POST_delete_message id) s =
        (set_flash
           (unread (flash s) ++ [("error", Text "Error deleting message.")])
           (entered s (Some u)),
         Returned (redirect "/messages")))
  /\ (User.is_admin u = false ->
      app now (POST_delete_message id) s =
        (entered s (Some u),
         Returned (send 403 "You are not authorized to delete messages."))).
Proof.
  intros now id s u Hp.
  rewrite (app_principal _ _ _ _ Hp).
  unfold route, post_delete_message.
  rewrite ensureLoggedIn_entered.
  unfold try_catch, bind, req_user. simpl.
  repeat split.
  - intros Ha Hn. rewrite Ha, Hn. reflexivity.
  - intros Ha messageId Hn Hno. rewrite Ha, Hn. simpl.
    unfold prisma, Prisma.message_delete. simpl.
    assert (Hex : existsb (fun m => Message.id m =? messageId)
                    (Prisma.messages (db s)) = false).
    { apply not_true_is_false. intros Hex. apply existsb_exists in Hex.
      destruct Hex as [m [Hin Heq]]. apply Z.eqb_eq in Heq.
      exact (Hno m Hin Heq). }
    rewrite Hex. reflexivity.
  - intros Ha. rewrite Ha. reflexivity.
Qed.


(** ** Membership promotion *)

Lemma set_is_member_fixed u :
  User.is_member u = true -> User.set_is_member true u = u.
Proof. destruct u; simpl; intros ->; reflexivity. Qed.

Lemma find_id_eq id l u :
  find (fun x => User.id x =? id) l = Some u -> User.id u = id.
Proof.
  intros H. apply find_some in H. destruct H as [_ H].
  apply Z.eqb_eq. exact H.
Qed.

Lemma find_id_In id l u :
  find (fun x => User.id x =? id) l = Some u -> In u l.
Proof. intros H. apply find_some in H. tauto. Qed.

(** Updating the record that [findUnique] returns with a function that
    leaves it alone changes nothing. *)
Lemma update_where_fixed id f l u :
  find (fun x => User.id x =? id) l = Some u -> f u = u ->
  Prisma.update_where id f l = Some l.
Proof.
  intros Hfind Hf. induction l as [|x rest IH]; simpl in *; [discriminate|].
  destruct (User.id x =? id).
  - injection Hfind as ->. rewrite Hf. reflexivity.
  - rewrite (IH Hfind). reflexivity.
Qed.

(** The record that [findUnique] returns is the one [update] changes. *)
Lemma update_where_found id f l u :
  find (fun x => User.id x =? id) l = Some u ->
  (forall x, User.id (f x) = User.id x) ->
  exists l', Prisma.update_where id f l = Some l'
             /\ find (fun x => User.id x =? id) l' = Some (f u).
Proof.
  intros Hfind Hid. induction l as [|x rest IH]; simpl in *; [discriminate|].
  destruct (User.id x =? id) eqn:Hx.
  - injection Hfind as ->. eexists. split; [reflexivity|].
    simpl. rewrite Hid, Hx. reflexivity.
  - destruct (IH Hfind) as [l' [Hup Hfind']]. rewrite Hup. simpl.
    eexists. split; [reflexivity|]. simpl. rewrite Hx. exact Hfind'.
Qed.

Lemma become_member_chain_passes body :
  snd (Chains.become_member body) = [] ->
  Chains.become_member body =
    (MemberBody.mk
       (JS.Str (JS.trim (JS.toString (MemberBody.secret_code body)))), []).
Proof. unfold Chains.become_member. simpl. intros ->. reflexivity. Qed.

(** A promotion with a code that passes the chain and equals the secret:
    the principal's record is updated, [req.user] with it, and the answer
    is the redirect to [/messages]. *)
Lemma become_member_success now body s u :
  principal s u ->
  snd (Chains.become_member body) = [] ->
  JS.strict_eq
    (JS.Str (JS.trim (JS.toString (MemberBody.secret_code body))))
    (MEMBER_SECRET_CODE env) = true ->
  exists d',
    Prisma.user_update_is_member (db s) (User.id u) = Returned d'
    /\ app now (POST_become_member body) s =
         (mkReq d' (session s) (Some (User.set_is_member true u))
            (unread (flash s) ++
               [("successMessage",
                 Text "Congratulations! You are now a full member.")]),
          Returned (redirect "/messages"))
    /\ principal
         (fst (app now (POST_become_member body) s))
         (User.set_is_member true u).
Proof.
  intros Hp Hv Hcode.
  rewrite (app_principal _ _ _ _ Hp).
  destruct Hp as [id [Hs Hu]].
  unfold deserializeUser, Prisma.user_findUnique in Hu.
  pose proof (find_id_eq _ _ _ Hu) as Hid.
  destruct (update_where_found id (User.set_is_member true) _ _ Hu) as [l' [Hup Hfind']];
    [destruct x; reflexivity|].
  unfold route, post_become_member. rewrite ensureLoggedIn_entered.
  rewrite (become_member_chain_passes _ Hv).
  unfold try_catch, bind. cbn [MemberBody.secret_code]. rewrite Hcode.
  cbn [negb]. unfold req_user, prisma, Prisma.user_update_is_member.
  cbn [entered user db]. rewrite Hid, Hup.
  unfold set_flash, set_user, set_db. cbn.
  eexists. split; [reflexivity|]. split.
  - reflexivity.
  - exists id. cbn. split; [exact Hs|].
    unfold deserializeUser, Prisma.user_findUnique. exact Hfind'.
Qed.

(** C7. Promotion is idempotent. For a principal who is a member already,
    a promotion with the correct code answers with the redirect to
    [/messages] and the success message, and leaves the database and the
    principal as they were. And whoever the principal is, a second promotion
    after a first one with the correct code succeeds too and leaves the
    database as the first one made it, with [is_member] true. *)
Theorem promotion_idempotent : forall now body s u,
  principal s u ->
  snd (Chains.become_member body) = [] ->
  JS.strict_eq
    (JS.Str (JS.trim (JS.toString (MemberBody.secret_code body))))
    (MEMBER_SECRET_CODE env) = true ->
  (User.is_member u = true ->
   app now (POST_become_member body) s =
     (set_flash
        (unread (flash s) ++
           [("successMessage",
             Text "Congratulations! You are now a full member.")])
        (entered s (Some u)),
      Returned (redirect "/messages")))
  /\ (let once := fst (app now (POST_become_member body) s) in
      let twice := app now (POST_become_member body) once in
      snd twice = Returned (redirect "/messages")
      /\ db (fst twice) = db once
      /\ exists u', user (fst twice) = Some u' /\ User.is_member u' = true
                    /\ principal (fst twice) u').
Proof.
  intros now body s u Hp Hv Hcode.
  assert (Hmember : forall s0 u0, principal s0 u0 -> User.is_member u0 = true ->
            app now (POST_become_member body) s0 =
              (set_flash
                 (unread (flash s0) ++
                    [("successMessage",
                      Text "Congratulations! You are now a full member.")])
                 (entered s0 (Some u0)),
               Returned (redirect "/messages"))).
  { intros s0 u0 Hp0 Hm.
    destruct (become_member_success now body s0 u0 Hp0 Hv Hcode)
      as [d' [Hup [Happ _]]].
    rewrite Happ. destruct Hp0 as [id [Hs Hu]].
    unfold Prisma.user_update_is_member in Hup.
    unfold deserializeUser, Prisma.user_findUnique in Hu.
    rewrite (find_id_eq _ _ _ Hu) in Hup.
    rewrite (update_where_fixed _ _ _ _ Hu (set_is_member_fixed _ Hm)) in Hup.
    injection Hup as <-. rewrite (set_is_member_fixed _ Hm).
    unfold entered, set_flash. cbn. rewrite Hs.
    destruct (db s0); reflexivity. }
  split; [apply Hmember; exact Hp|].
  destruct (become_member_success now body s u Hp Hv Hcode)
    as [d' [_ [_ Hp']]].
  cbv zeta.
  assert (Hm' : User.is_member (User.set_is_member true u) = true) by reflexivity.
  rewrite (Hmember _ _ Hp' Hm'). cbn.
  split; [reflexivity|]. split; [reflexivity|].
  exists (User.set_is_member true u). split; [reflexivity|]. split; [reflexivity|].
  destruct Hp' as [id [Hs Hu]]. exists id. cbn. rewrite Hs. split; [reflexivity|].
  exact Hu.
Qed.




(** ** What each route does to the users table *)

Lemma post_login_db body s : db (fst (post_login body s)) = db s.
Proof.
  unfold post_login. destruct (Chains.login body) as [b errors].
  destruct errors as [|msg errors]; [|reflexivity].
  unfold bind, get_db. destruct (local_strategy (db s) b); reflexivity.
Qed.

Lemma get_create_message_db s : db (fst (get_create_message s)) = db s.
Proof.
  unfold get_create_message, ensureLoggedIn.
  destruct (user s) as [u|] eqn:Hu; [|reflexivity].
  unfold bind, req_user. rewrite Hu. destruct (User.is_member u); reflexivity.
Qed.

Lemma post_create_message_users now body s :
  Prisma.users (db (fst (post_create_message now body s))) = Prisma.users (db s).
Proof.
  unfold post_create_message, ensureLoggedIn.
  destruct (user s) as [u|] eqn:Hu; [|reflexivity].
  unfold bind at 1. unfold req_user at 1. rewrite Hu.
  destruct (User.is_member u); [|reflexivity]. cbn [negb].
  destruct (negb (JS.truthy (MessageBody.title body))
            || negb (JS.truthy (MessageBody.text body))); [reflexivity|].
  unfold try_catch, bind, js_trim, req_user, prisma, Prisma.message_create.
  destruct (MessageBody.title body); try reflexivity.
  destruct (MessageBody.text body); try reflexivity.
  cbn. rewrite Hu.
  destruct (existsb _ (Prisma.users (db s))); reflexivity.
Qed.

Lemma post_delete_message_users id s :
  Prisma.users (db (fst (post_delete_message id s))) = Prisma.users (db s).
Proof.
  unfold post_delete_message, ensureLoggedIn.
  destruct (user s) as [u|] eqn:Hu; [|reflexivity].
  unfold try_catch, bind, req_user. rewrite Hu.
  destruct (User.is_admin u); [|reflexivity]. cbn [negb].
  destruct (JS.parseInt id) as [messageId|]; [|reflexivity].
  unfold prisma, Prisma.message_delete.
  destruct (existsb _ (Prisma.messages (db s))); reflexivity.
Qed.

Lemma update_where_In id f l l' x :
  Prisma.update_where id f l = Some l' -> In x l' ->
  In x l \/ exists y, In y l /\ x = f y.
Proof.
  revert l'. induction l as [|y rest IH]; intros l' Hup Hin; simpl in Hup;
    [discriminate|].
  destruct (User.id y =? id).
  - injection Hup as <-. destruct Hin as [<-|Hin].
    + right. exists y. split; [left; reflexivity | reflexivity].
    + left. right. exact Hin.
  - destruct (Prisma.update_where id f rest) as [rest'|]; [|discriminate].
    injection Hup as <-. destruct Hin as [<-|Hin].
    + left. left. reflexivity.
    + destruct (IH rest' eq_refl Hin) as [H|[z [Hz Hx]]].
      * left. right. exact H.
      * right. exists z. split; [right; exact Hz | exact Hx].
Qed.

Lemma post_become_member_invariant body s :
  admin_implies_member (db s) ->
  admin_implies_member (db (fst (post_become_member body s))).
Proof.
  intros Hinv. unfold post_become_member, ensureLoggedIn.
  destruct (user s) as [u|] eqn:Hu; [|exact Hinv].
  destruct (Chains.become_member body) as [b errors].
  destruct errors as [|msg errors]; [|exact Hinv].
  unfold try_catch, bind.
  destruct (negb (JS.strict_eq (MemberBody.secret_code b)
                    (MEMBER_SECRET_CODE env))); [exact Hinv|].
  unfold req_user at 1. rewrite Hu.
  unfold prisma, Prisma.user_update_is_member.
  destruct (Prisma.update_where (User.id u) (User.set_is_member true)
              (Prisma.users (db s))) as [l'|] eqn:Hup; [|exact Hinv].
  unfold req_user. cbn. rewrite Hu. cbn.
  intros x Hin Hadmin. cbn in Hin.
  destruct (update_where_In _ _ _ _ _ Hup Hin) as [H|[y [Hy ->]]].
  - exact (Hinv x H Hadmin).
  - reflexivity.
Qed.

Lemma register_chain_body body :
  fst (Chains.register isEmail normalizeEmail body) =
    RegisterBody.mk
      (JS.Str (JS.trim (JS.toString (RegisterBody.first_name body))))
      (JS.Str (JS.trim (JS.toString (RegisterBody.last_name body))))
      (JS.Str (JS.trim (JS.toString (RegisterBody.username body))))
      (Chains.sanitized_email normalizeEmail (RegisterBody.email body))
      (RegisterBody.password body)
      (RegisterBody.confirm_password body)
      (RegisterBody.admin_code body).
Proof. reflexivity. Qed.

(** A registration leaves the database alone, or finds nobody with the
    username or the e-mail and adds one user, whose [is_member] is its
    [is_admin]. *)
Lemma post_register_db body s :
  db (fst (post_register body s)) = db s
  \/ exists e data,
       normalizeEmail (JS.trim (JS.toString (RegisterBody.email body))) = Some e
       /\ Prisma.user_findFirst (db s)
            (JS.trim (JS.trim (JS.toString (RegisterBody.username body))))
            (JS.trim e) = None
       /\ Prisma.user_create (db s) data =
            Returned (db (fst (post_register body s)))
       /\ Prisma.is_member data = Prisma.is_admin data.
Proof.
  unfold post_register.
  pose proof (register_chain_body body) as Hb.
  destruct (Chains.register isEmail normalizeEmail body) as [b errors].
  cbn [fst] in Hb. subst b.
  destruct errors as [|msg errors]; [|left; reflexivity].
  unfold Chains.sanitized_email.
  destruct (normalizeEmail (JS.trim (JS.toString (RegisterBody.email body))))
    as [e|] eqn:He; [|left; reflexivity].
  unfold try_catch, bind, js_trim, get_db, ret.
  cbn [RegisterBody.username RegisterBody.email RegisterBody.first_name
       RegisterBody.last_name RegisterBody.password RegisterBody.admin_code].
  destruct (Prisma.user_findFirst (db s) _ (JS.trim e)) eqn:Hfind;
    [left; reflexivity|].
  unfold hash. destruct (RegisterBody.password body) as [| |pb|p];
    try (left; reflexivity).
  unfold ret, prisma.
  match goal with
  | |- context [Prisma.user_create (db s) ?data] =>
      destruct (Prisma.user_create (db s) data) as [d'|ex] eqn:Hc
  end.
  - right. eexists. eexists. split; [reflexivity|]. split; [exact Hfind|].
    split; [exact Hc | reflexivity].
  - left. reflexivity.
Qed.

Lemma user_create_invariant d data d' :
  Prisma.user_create d data = Returned d' ->
  Prisma.is_member data = Prisma.is_admin data ->
  admin_implies_member d -> admin_implies_member d'.
Proof.
  unfold Prisma.user_create. intros Hc Hdata Hinv.
  destruct (existsb _ (Prisma.users d)); [discriminate|].
  injection Hc as <-. intros x Hin Hadmin. cbn in Hin.
  apply in_app_or in Hin. destruct Hin as [Hin|[<-|[]]].
  - exact (Hinv x Hin Hadmin).
  - cbn in *. congruence.
Qed.

(** C5. Admin implies member is an invariant of the users table: a
    database in which every admin is a member is again one after any
    request, a registration and a membership promotion among them. *)
Theorem admin_implies_member_preserved : forall now r s,
  admin_implies_member (db s) ->
  admin_implies_member (db (fst (app now r s))).
Proof.
  intros now r s Hinv. rewrite app_arrived.
  rewrite <- arrived_db in Hinv. revert Hinv. generalize (arrived s).
  clear s. intros s Hinv. destruct r; unfold route.
  - rewrite post_login_db. exact Hinv.
  - destruct (post_register_db body s) as [->|[e [data [_ [_ [Hc Hdata]]]]]];
      [exact Hinv|].
    exact (user_create_invariant _ _ _ Hc Hdata Hinv).
  - apply post_become_member_invariant. exact Hinv.
  - rewrite get_create_message_db. exact Hinv.
  - intros u. rewrite post_create_message_users. apply Hinv.
  - exact Hinv.
  - intros u. rewrite post_delete_message_users. apply Hinv.
Qed.

(** ** Trimming twice *)

Lemma trimStart_head s c r : JS.trimStart s = String c r -> JS.is_space c = false.
Proof.
  induction s as [|d rest IH]; simpl; [discriminate|].
  destruct (JS.is_space d) eqn:Hd; [exact IH|].
  intros H. injection H as <- _. exact Hd.
Qed.

Lemma trimStart_idempotent s : JS.trimStart (JS.trimStart s) = JS.trimStart s.
Proof.
  destruct (JS.trimStart s) as [|c r] eqn:H; [reflexivity|].
  simpl. rewrite (trimStart_head _ _ _ H). reflexivity.
Qed.

Lemma trimEnd_idempotent s : JS.trimEnd (JS.trimEnd s) = JS.trimEnd s.
Proof.
  induction s as [|c rest IH]; simpl; [reflexivity|].
  destruct (JS.trimEnd rest) as [|d kept] eqn:Hk.
  - destruct (JS.is_space c) eqn:Hc; simpl; [reflexivity|].
    rewrite Hc. reflexivity.
  - change (JS.trimEnd (String c (String d kept))) with
      (match JS.trimEnd (String d kept) with
       | EmptyString =>
           if JS.is_space c then EmptyString else String c EmptyString
       | String a b => String c (String a b)
       end).
    rewrite IH. reflexivity.
Qed.

Lemma trimStart_trimEnd s : JS.trimStart (JS.trimEnd s) = JS.trimEnd (JS.trimStart s).
Proof.
  induction s as [|c rest IH]; [reflexivity|].
  cbn [JS.trimStart]. destruct (JS.is_space c) eqn:Hc.
  - rewrite <- IH. cbn [JS.trimEnd].
    destruct (JS.trimEnd rest) as [|d kept]; [rewrite Hc; reflexivity|].
    cbn [JS.trimStart]. rewrite Hc. reflexivity.
  - cbn [JS.trimEnd]. destruct (JS.trimEnd rest) as [|d kept];
      rewrite ?Hc; cbn [JS.trimStart]; rewrite Hc; reflexivity.
Qed.

Lemma trim_idempotent s : JS.trim (JS.trim s) = JS.trim s.
Proof.
  unfold JS.trim.
  rewrite trimStart_trimEnd, trimStart_idempotent, trimEnd_idempotent.
  reflexivity.
Qed.

(** ** Registration *)

Lemma user_findFirst_finds d u username email :
  In u (Prisma.users d) ->
  User.username u = username \/ User.email u = email ->
  exists found, Prisma.user_findFirst d username email = Some found.
Proof.
  intros Hin Hdup. unfold Prisma.user_findFirst.
  destruct (find _ (Prisma.users d)) as [found|] eqn:Hfind;
    [exists found; reflexivity|].
  exfalso. pose proof (find_none _ _ Hfind u Hin) as Hno. cbn in Hno.
  apply orb_false_iff in Hno. destruct Hno as [Hn He].
  destruct Hdup as [H|H]; subst.
  - rewrite String.eqb_refl in Hn. discriminate.
  - rewrite String.eqb_refl in He. discriminate.
Qed.

Lemma post_register_conflict body s e found :
  snd (Chains.register isEmail normalizeEmail body) = [] ->
  normalizeEmail (JS.trim (JS.toString (RegisterBody.email body))) = Some e ->
  Prisma.user_findFirst (db s)
    (JS.trim (JS.trim (JS.toString (RegisterBody.username body))))
    (JS.trim e) = Some found ->
  post_register body s =
    (set_flash
       (flash s ++
          [("error",
            Text "Username or email already exists. Please choose different ones.");
           ("formData",
            FormData (fst (Chains.register isEmail normalizeEmail body)))])
       s,
     Returned (redirect "/register")).
Proof.
  intros Hv He Hfind. unfold post_register.
  pose proof (register_chain_body body) as Hb.
  destruct (Chains.register isEmail normalizeEmail body) as [b errors].
  cbn [fst] in *. cbn [snd] in Hv. subst b errors.
  unfold Chains.sanitized_email. rewrite He.
  unfold try_catch, bind, js_trim, get_db, ret.
  cbn [RegisterBody.username RegisterBody.email]. rewrite Hfind.
  unfold req_flash, set_flash. cbn. rewrite <- app_assoc. reflexivity.
Qed.

(** C6. A registration whose username, or whose normalised e-mail, is that
    of an existing user leaves the database as it was; and when the form
    passes validation and its e-mail normalises, the answer is the redirect
    to [/register] with the message that the username or e-mail already
    exists. *)
Theorem register_duplicate_conflict : forall now body s u,
  In u (Prisma.users (db s)) ->
  (User.username u = JS.trim (JS.toString (RegisterBody.username body))
   \/ exists e,
        normalizeEmail (JS.trim (JS.toString (RegisterBody.email body))) = Some e
        /\ User.email u = JS.trim e) ->
  db (fst (app now (POST_register body) s)) = db s
  /\ (snd (Chains.register isEmail normalizeEmail body) = [] ->
      forall e,
      normalizeEmail (JS.trim (JS.toString (RegisterBody.email body))) = Some e ->
      app now (POST_register body) s =
        (set_flash
           (unread (flash s) ++
              [("error",
                Text "Username or email already exists. Please choose different ones.");
               ("formData",
                FormData (fst (Chains.register isEmail normalizeEmail body)))])
           (arrived s),
         Returned (redirect "/register"))).
Proof.
  intros now body s u Hin Hdup.
  assert (Hfound : forall e,
            normalizeEmail (JS.trim (JS.toString (RegisterBody.email body))) = Some e ->
            exists found,
              Prisma.user_findFirst (db (arrived s))
                (JS.trim (JS.trim (JS.toString (RegisterBody.username body))))
                (JS.trim e) = Some found).
  { intros e He. rewrite arrived_db.
    apply (user_findFirst_finds _ u); [exact Hin|].
    rewrite trim_idempotent.
    destruct Hdup as [H|[e' [He' H]]]; [left; exact H|].
    right. congruence. }
  rewrite app_arrived. unfold route. split.
  - destruct (post_register_db body (arrived s))
      as [H|[e [data [He [Hnone _]]]]].
    + rewrite H. apply arrived_db.
    + destruct (Hfound e He) as [found Hsome]. congruence.
  - intros Hv e He. destruct (Hfound e He) as [found Hsome].
    rewrite (post_register_conflict _ _ _ _ Hv He Hsome), arrived_flash.
    reflexivity.
Qed.


(** ** Creating a message *)

Lemma principal_exists s u :
  principal s u ->
  existsb (fun x => User.id x =? User.id u) (Prisma.users (db s)) = true.
Proof.
  intros [id [_ Hu]]. unfold deserializeUser, Prisma.user_findUnique in Hu.
  apply existsb_exists. exists u. split; [exact (find_id_In _ _ _ Hu)|].
  apply Z.eqb_refl.
Qed.

(** X1. What [POST /create-message] does for a member: a title or a text that
    is absent or the empty string is answered with the form and its error,
    and nothing is stored; a title and a text that are non-empty strings are
    stored trimmed, with the principal as author, whatever is left of them
    after trimming. *)
Lemma create_message_by_member now body s u :
  principal s u ->
  User.is_member u = true ->
  (JS.truthy (MessageBody.title body) = false
   \/ JS.truthy (MessageBody.text body) = false ->
   app now (POST_create_message body) s =
     (entered s (Some u),
      Returned
        (render "create-message"
           [("title", JS.Str "Create Message");
            ("error",
             JS.Str "Both title and message content are required.")])))
  /\ (forall title text,
      MessageBody.title body = JS.Str title ->
      MessageBody.text body = JS.Str text ->
      Validator.nonempty title = true ->
      Validator.nonempty text = true ->
      app now (POST_create_message body) s =
        (mkReq
           (Prisma.mkDB (Prisma.users (db s))
              (Prisma.messages (db s) ++
                 [Message.mk (Prisma.message_seq (db s) + 1) (JS.trim title)
                    (JS.trim text) now (User.id u)])
              (Prisma.user_seq (db s)) (Prisma.message_seq (db s) + 1))
           (session s) (Some u)
           (unread (flash s) ++
              [("successMessage", Text "Message created successfully!")]),
         Returned (redirect "/messages"))).
Proof.
  intros Hp Hm. rewrite (app_principal _ _ _ _ Hp).
  unfold route, post_create_message. rewrite ensureLoggedIn_entered.
  split.
  - intros Hfalsy. unfold bind, req_user. cbn [entered user].
    rewrite Hm. cbn [negb].
    assert (Hc : negb (JS.truthy (MessageBody.title body))
                 || negb (JS.truthy (MessageBody.text body)) = true).
    { destruct Hfalsy as [-> | ->]; [reflexivity | apply orb_true_r]. }
    rewrite Hc. reflexivity.
  - intros title text Ht Hx Hnt Hnx.
    unfold bind at 1. unfold req_user at 1. cbn [entered user].
    rewrite Hm. cbn [negb].
    rewrite Ht, Hx, !truthy_Str, Hnt, Hnx. cbn [negb orb].
    unfold try_catch, bind, js_trim, req_user, prisma, Prisma.message_create, ret.
    cbn [entered user db]. rewrite (principal_exists _ _ Hp). reflexivity.
Qed.


(** * The rest of the application *)

(** ** Entering a route *)

Lemma app_pages_arrived r s : app_pages r s = page_route r (arrived s).
Proof.
  unfold app_pages, arrived, bind.
  destruct (passport_session s) as [s1 [[]|e]] eqn:H1; [reflexivity|].
  unfold passport_session in H1.
  destruct (session s); [destruct (deserializeUser (db s) z)|]; discriminate.
Qed.

Lemma arrived_anonymous s : anonymous s -> arrived s = entered s None.
Proof.
  intros Hanon. unfold arrived, bind, passport_session, entered.
  destruct (session s) as [id|] eqn:Hs.
  - destruct (deserializeUser (db s) id) as [u|] eqn:Hu.
    + exfalso. apply (Hanon u). exists id. split; assumption.
    + reflexivity.
  - clear Hanon. destruct s; cbn in *. subst. reflexivity.
Qed.

Lemma arrived_user s u : user (arrived s) = Some u -> principal s u.
Proof.
  unfold arrived, bind, passport_session.
  destruct (session s) as [id|] eqn:Hs.
  - destruct (deserializeUser (db s) id) as [u'|] eqn:Hu; cbn.
    + intros H. injection H as <-. exists id. split; assumption.
    + discriminate.
  - cbn. discriminate.
Qed.

Lemma arrived_cases s :
  (exists u, principal s u /\ arrived s = entered s (Some u))
  \/ (anonymous s /\ arrived s = entered s None).
Proof.
  destruct (user (arrived s)) as [u|] eqn:Hu.
  - left. exists u. pose proof (arrived_user _ _ Hu) as Hp.
    split; [exact Hp | exact (arrived_principal _ _ Hp)].
  - right. assert (Hanon : anonymous s).
    { intros u Hp. rewrite (arrived_principal _ _ Hp) in Hu. discriminate. }
    split; [exact Hanon | exact (arrived_anonymous _ Hanon)].
Qed.

Lemma serve_inl now r s :
  serve now (inl r) s =
    (fst (app now r s),
     match snd (app now r s) with
     | Returned answer => Returned (plain answer)
     | Threw e => Threw e
     end).
Proof.
  unfold serve, bind. destruct (app now r s) as [s' [answer|e]]; reflexivity.
Qed.

Lemma gate_turns_away now r s :
  anonymous s ->
  gated r = true ->
  serve now r s = (entered s None, Returned (plain (redirect "/login"))).
Proof.
  intros Hanon Hg.
  destruct r as [r|r]; destruct r; try discriminate Hg;
    try (rewrite serve_inl, app_arrived, (arrived_anonymous _ Hanon);
         reflexivity);
    unfold serve; rewrite app_pages_arrived, (arrived_anonymous _ Hanon);
    reflexivity.
Qed.

(** X9. A request to a gated route by somebody who is not logged in is
    answered with the redirect to [/login]; the handler behind the gate does
    not run, so the database and the session stay as they were, and what
    was flashed is not added to. *)
Theorem anonymous_is_sent_to_login : forall now r s,
  anonymous s ->
  gated r = true ->
  serve now r s = (entered s None, Returned (plain (redirect "/login")))
  /\ db (fst (serve now r s)) = db s
  /\ flash (fst (serve now r s)) = unread (flash s).
Proof.
  intros now r s Hanon Hg. rewrite (gate_turns_away now r s Hanon Hg).
  repeat split.
Qed.

(** X4. [POST /logout] answers with the redirect to [/], leaves nobody
    logged in and the database untouched; of the flashes only the one it
    writes is left; any gated route asked for next is answered with the
    redirect to [/login]. *)
Theorem logout_ends_the_session : forall now s,
  let out := serve now (inr POST_logout) s in
  snd out = Returned (plain (redirect "/"))
  /\ session (fst out) = None
  /\ anonymous (fst out)
  /\ db (fst out) = db s
  /\ flash (fst out) =
       [("successMessage", Text "You have been logged out successfully.")]
  /\ forall r, gated r = true ->
       snd (serve now r (fst out)) = Returned (plain (redirect "/login")).
Proof.
  intros now s. cbv zeta.
  assert (Hout : serve now (inr POST_logout) s
                 = page_route POST_logout (arrived s))
    by (unfold serve; apply app_pages_arrived).
  rewrite Hout.
  assert (Hanon : anonymous (fst (page_route POST_logout (arrived s)))).
  { intros u [id [Hs _]]. cbn in Hs. discriminate. }
  split; [reflexivity|]. split; [reflexivity|]. split; [exact Hanon|].
  split; [apply arrived_db|]. split; [reflexivity|].
  intros r Hg. rewrite (gate_turns_away now r _ Hanon Hg). reflexivity.
Qed.


(** ** Logging in *)

Lemma user_findFirst_some d username email u :
  Prisma.user_findFirst d username email = Some u ->
  In u (Prisma.users d)
  /\ (User.username u = username \/ User.email u = email).
Proof.
  unfold Prisma.user_findFirst. intros H. apply find_some in H.
  destruct H as [Hin H]. split; [exact Hin|].
  apply orb_true_iff in H. destruct H as [H|H]; apply String.eqb_eq in H; auto.
Qed.

Lemma post_login_cases body s :
  let out := post_login body s in
  let identifier :=
    Validator.escape (JS.trim (JS.toString (LoginBody.username body))) in
  (session (fst out) = session s /\ user (fst out) = user s
   /\ snd out = Returned (redirect "/login"))
  \/ exists u p,
       In u (Prisma.users (db s))
       /\ (User.username u = identifier \/ User.email u = identifier)
       /\ LoginBody.password body = JS.Str p
       /\ bcrypt_compare p (User.password u) = true
       /\ session (fst out) = Some (User.id u)
       /\ user (fst out) = Some u
       /\ snd out = Returned (redirect "/messages").
Proof.
  cbv zeta. unfold post_login.
  assert (Hb : fst (Chains.login body) =
               LoginBody.mk
                 (JS.Str (Validator.escape
                            (JS.trim (JS.toString (LoginBody.username body)))))
                 (LoginBody.password body)) by reflexivity.
  destruct (Chains.login body) as [b errors]. cbn [fst] in Hb. subst b.
  destruct errors as [|msg errors]; [|solve [left; repeat split]].
  unfold bind, get_db, local_strategy.
  cbn [LoginBody.username LoginBody.password].
  destruct (negb (JS.truthy (JS.Str _)) || negb (JS.truthy (LoginBody.password body)));
    [solve [left; repeat split]|].
  unfold verify.
  destruct (Prisma.user_findFirst (db s) _ _) as [u|] eqn:Hfind;
    [|solve [left; repeat split]].
  destruct (LoginBody.password body) as [| |b|p] eqn:Hp;
    try solve [left; repeat split].
  destruct (bcrypt_compare p (User.password u)) eqn:Hcmp;
    [|solve [left; repeat split]].
  right. exists u, p. apply user_findFirst_some in Hfind.
  destruct Hfind as [Hin Hmatch]. cbn. repeat split; auto.
Qed.

(** X7. [POST /login] never writes to the database, and it answers in one
    of two ways. Either nobody is logged in by it: the session and
    [req.user] stay as they were and the answer is the redirect to
    [/login]. Or the session now holds the id of a stored user whose
    username or e-mail is the escaped, trimmed identifier and whose stored
    hash verifies the submitted password. *)
Theorem login_needs_verified_password : forall now body s,
  let out := app now (POST_login body) s in
  let identifier :=
    Validator.escape (JS.trim (JS.toString (LoginBody.username body))) in
  db (fst out) = db s
  /\ ((session (fst out) = session (arrived s)
       /\ user (fst out) = user (arrived s)
       /\ snd out = Returned (redirect "/login"))
      \/ exists u p,
           In u (Prisma.users (db s))
           /\ (User.username u = identifier \/ User.email u = identifier)
           /\ LoginBody.password body = JS.Str p
           /\ bcrypt_compare p (User.password u) = true
           /\ session (fst out) = Some (User.id u)
           /\ user (fst out) = Some u
           /\ snd out = Returned (redirect "/messages")).
Proof.
  intros now body s. cbv zeta. rewrite app_arrived. unfold route. split.
  - rewrite post_login_db. apply arrived_db.
  - pose proof (post_login_cases body (arrived s)) as H. cbv zeta in H.
    rewrite arrived_db in H. exact H.
Qed.

Lemma find_unique_id l u :
  NoDup (map User.id l) -> In u l ->
  find (fun x => User.id x =? User.id u) l = Some u.
Proof.
  induction l as [|x rest IH]; intros Hnd Hin; [contradiction|].
  simpl in Hnd. inversion Hnd as [|? ? Hnotin Hnd']; subst. simpl.
  destruct Hin as [->|Hin].
  - rewrite Z.eqb_refl. reflexivity.
  - destruct (User.id x =? User.id u) eqn:Hx.
    + exfalso. apply Hnotin. apply Z.eqb_eq in Hx. rewrite Hx.
      apply in_map. exact Hin.
    + apply IH; assumption.
Qed.

(** X8. Logging in and coming back. When the users' ids are distinct, a
    login that passes the form validation, finds a user and verifies the
    password leaves a session that resolves to that user: the next request
    is made by him as principal. *)
Theorem login_then_principal : forall now body p s u,
  LoginBody.password body = JS.Str p ->
  snd (Chains.login body) = [] ->
  NoDup (map User.id (Prisma.users (db s))) ->
  (let identifier :=
     Validator.escape (JS.trim (JS.toString (LoginBody.username body))) in
   Prisma.user_findFirst (db s) identifier identifier = Some u) ->
  bcrypt_compare p (User.password u) = true ->
  let out := app now (POST_login body) s in
  snd out = Returned (redirect "/messages")
  /\ principal (fst out) u
  /\ deserializeUser (db (fst out)) (serializeUser u) = Some u.
Proof.
  intros now body p s u Hp Hv Hnd Hfind Hcmp. cbv zeta in *.
  rewrite app_arrived. unfold route.
  rewrite (post_login_valid _ _ _ Hp Hv). cbv zeta.
  rewrite arrived_db, Hfind, Hcmp. cbn.
  apply user_findFirst_some in Hfind. destruct Hfind as [Hin _].
  assert (Hround : deserializeUser (db (arrived s)) (serializeUser u) = Some u).
  { unfold deserializeUser, Prisma.user_findUnique, serializeUser.
    rewrite arrived_db. apply find_unique_id; assumption. }
  split; [reflexivity|]. split; [|exact Hround].
  exists (User.id u). cbn. split; [reflexivity | exact Hround].
Qed.


(** ** Registering *)

Lemma find_none_existsb {A} (f : A -> bool) l :
  find f l = None -> existsb f l = false.
Proof.
  induction l as [|x rest IH]; simpl; [reflexivity|].
  destruct (f x); [discriminate | exact IH].
Qed.

(** A password that passes the chain is a string. *)
Lemma register_valid_password body :
  snd (Chains.register isEmail normalizeEmail body) = [] ->
  exists p, RegisterBody.password body = JS.Str p.
Proof.
  unfold Chains.register. cbn [snd]. intros H.
  repeat match goal with
         | Hx : (_ ++ _)%list = [] |- _ =>
             apply app_eq_nil in Hx; destruct Hx
         end.
  match goal with
  | Hlen : Validator.check (Validator.isLength 6 _ _) _ = [] |- _ =>
      apply check_nil in Hlen; rename Hlen into Hsix
  end.
  destruct (RegisterBody.password body) as [| |[]|p]; try discriminate Hsix.
  exists p. reflexivity.
Qed.

Lemma post_register_success body s e p :
  snd (Chains.register isEmail normalizeEmail body) = [] ->
  normalizeEmail (JS.trim (JS.toString (RegisterBody.email body))) = Some e ->
  RegisterBody.password body = JS.Str p ->
  Prisma.user_findFirst (db s)
    (JS.trim (JS.toString (RegisterBody.username body))) (JS.trim e) = None ->
  post_register body s =
    (mkReq
       (Prisma.mkDB
          (Prisma.users (db s) ++
             [User.mk (Prisma.user_seq (db s) + 1)
                (JS.trim (JS.toString (RegisterBody.first_name body)))
                (JS.trim (JS.toString (RegisterBody.last_name body)))
                (JS.trim (JS.toString (RegisterBody.username body)))
                (JS.trim e)
                (bcrypt_hash p 10)
                (JS.strict_eq (RegisterBody.admin_code body)
                   (ADMIN_SECRET_CODE env))
                (JS.strict_eq (RegisterBody.admin_code body)
                   (ADMIN_SECRET_CODE env))])
          (Prisma.messages (db s)) (Prisma.user_seq (db s) + 1)
          (Prisma.message_seq (db s)))
       (session s) (user s)
       (flash s ++
          [("success",
            Text "Registration successful! Please log in with your credentials.")]),
     Returned (redirect "/login")).
Proof.
  intros Hv He Hp Hfind. unfold post_register.
  pose proof (register_chain_body body) as Hb.
  destruct (Chains.register isEmail normalizeEmail body) as [b errors].
  cbn [fst] in *. cbn [snd] in Hv. subst b errors.
  unfold Chains.sanitized_email. rewrite He.
  unfold try_catch, bind, js_trim, get_db, ret.
  cbn [RegisterBody.username RegisterBody.email RegisterBody.first_name
       RegisterBody.last_name RegisterBody.password RegisterBody.admin_code].
  rewrite !trim_idempotent, Hfind, Hp. unfold hash, ret, prisma.
  unfold Prisma.user_create.
  cbn [Prisma.username Prisma.email Prisma.first_name Prisma.last_name
       Prisma.password Prisma.is_admin Prisma.is_member].
  unfold Prisma.user_findFirst in Hfind.
  rewrite (find_none_existsb _ _ Hfind). reflexivity.
Qed.

(** X2. A registration that passes the chain, whose e-mail normalises and
    whose username and e-mail nobody has, adds one user at the end of the
    table, with the next id, the trimmed names and username, the normalised
    e-mail, the bcrypt hash of the password at ten rounds, and both role
    flags equal to [admin_code === ADMIN_SECRET_CODE]. It answers with the
    redirect to [/login] and logs nobody in. *)
Theorem register_creates_user : forall now body s e,
  snd (Chains.register isEmail normalizeEmail body) = [] ->
  normalizeEmail (JS.trim (JS.toString (RegisterBody.email body))) = Some e ->
  Prisma.user_findFirst (db s)
    (JS.trim (JS.toString (RegisterBody.username body))) (JS.trim e) = None ->
  exists p,
    RegisterBody.password body = JS.Str p
    /\ app now (POST_register body) s =
         (mkReq
            (Prisma.mkDB
               (Prisma.users (db s) ++
                  [User.mk (Prisma.user_seq (db s) + 1)
                     (JS.trim (JS.toString (RegisterBody.first_name body)))
                     (JS.trim (JS.toString (RegisterBody.last_name body)))
                     (JS.trim (JS.toString (RegisterBody.username body)))
                     (JS.trim e)
                     (bcrypt_hash p 10)
                     (JS.strict_eq (RegisterBody.admin_code body)
                        (ADMIN_SECRET_CODE env))
                     (JS.strict_eq (RegisterBody.admin_code body)
                        (ADMIN_SECRET_CODE env))])
               (Prisma.messages (db s)) (Prisma.user_seq (db s) + 1)
               (Prisma.message_seq (db s)))
            (session (arrived s)) (user (arrived s))
            (unread (flash s) ++
               [("success",
                 Text "Registration successful! Please log in with your credentials.")]),
          Returned (redirect "/login")).
Proof.
  intros now body s e Hv He Hfind.
  destruct (register_valid_password body Hv) as [p Hp]. exists p.
  split; [exact Hp|]. rewrite app_arrived. unfold route.
  rewrite <- arrived_db in Hfind.
  rewrite (post_register_success _ _ _ _ Hv He Hp Hfind).
  rewrite arrived_db, arrived_flash. reflexivity.
Qed.

(** X3. When the environment sets no [ADMIN_SECRET_CODE], a registration
    that sends no [admin_code] field and succeeds creates an admin, who is
    a member too: [undefined === undefined]. A registration that sends the
    field, even empty, then creates an ordinary user. *)
Theorem register_without_admin_secret : forall now body s e,
  snd (Chains.register isEmail normalizeEmail body) = [] ->
  normalizeEmail (JS.trim (JS.toString (RegisterBody.email body))) = Some e ->
  Prisma.user_findFirst (db s)
    (JS.trim (JS.toString (RegisterBody.username body))) (JS.trim e) = None ->
  ADMIN_SECRET_CODE env = JS.Undefined ->
  exists u,
    Prisma.users (db (fst (app now (POST_register body) s))) =
      (Prisma.users (db s) ++ [u])%list
    /\ User.username u = JS.trim (JS.toString (RegisterBody.username body))
    /\ (RegisterBody.admin_code body = JS.Undefined ->
        User.is_admin u = true /\ User.is_member u = true)
    /\ (forall code, RegisterBody.admin_code body = JS.Str code ->
        User.is_admin u = false /\ User.is_member u = false).
Proof.
  intros now body s e Hv He Hfind Henv.
  destruct (register_valid_password body Hv) as [p Hp].
  rewrite app_arrived. unfold route. rewrite <- arrived_db in Hfind.
  rewrite (post_register_success _ _ _ _ Hv He Hp Hfind).
  rewrite arrived_db, Henv. eexists. split; [reflexivity|].
  split; [reflexivity|]. split.
  - intros ->. split; reflexivity.
  - intros code ->. split; reflexivity.
Qed.


(** ** What a request can do to the users table *)

Lemma page_route_db r s : db (fst (page_route r s)) = db s.
Proof.
  destruct r; try reflexivity.
  - unfold page_route, get_become_member, ensureLoggedIn_page.
    destruct (user s); reflexivity.
  - unfold page_route, get_messages, ensureLoggedIn_page.
    destruct (user s) as [u|] eqn:Hu; [|reflexivity].
    unfold try_catch, bind, get_db.
    destruct (PrismaRead.message_findMany (db s)); [reflexivity|].
    unfold req_user. rewrite Hu. reflexivity.
Qed.

Lemma post_become_member_users body s :
  Prisma.users (db (fst (post_become_member body s))) = Prisma.users (db s)
  \/ exists u l',
       user s = Some u
       /\ Prisma.update_where (User.id u) (User.set_is_member true)
            (Prisma.users (db s)) = Some l'
       /\ Prisma.users (db (fst (post_become_member body s))) = l'.
Proof.
  remember (post_become_member body s) as out eqn:Ho.
  unfold post_become_member, ensureLoggedIn in Ho.
  destruct (user s) as [u|] eqn:Hu; [|subst out; left; reflexivity].
  destruct (Chains.become_member body) as [b errors].
  destruct errors as [|msg errors]; [|subst out; left; reflexivity].
  unfold try_catch, bind in Ho.
  destruct (negb (JS.strict_eq (MemberBody.secret_code b)
                    (MEMBER_SECRET_CODE env)));
    [subst out; left; reflexivity|].
  unfold req_user, prisma, Prisma.user_update_is_member in Ho.
  rewrite Hu in Ho.
  destruct (Prisma.update_where (User.id u) (User.set_is_member true)
              (Prisma.users (db s))) as [l'|] eqn:Hup.
  - cbn in Ho. rewrite Hu in Ho. cbn in Ho. subst out.
    right. exists u, l'. split; [reflexivity|]. split; [exact Hup | reflexivity].
  - subst out. left. reflexivity.
Qed.

(** The three things a request does to the users table: nothing, the
    [create] of a registration, the [update] of a promotion. *)
Lemma serve_users now r s :
  Prisma.users (db (fst (serve now r s))) = Prisma.users (db s)
  \/ (exists data, Prisma.user_create (db s) data
                   = Returned (db (fst (serve now r s))))
  \/ (exists u l',
        principal s u
        /\ Prisma.update_where (User.id u) (User.set_is_member true)
             (Prisma.users (db s)) = Some l'
        /\ Prisma.users (db (fst (serve now r s))) = l').
Proof.
  destruct r as [r|r].
  - rewrite serve_inl. cbn [fst]. rewrite app_arrived.
    destruct r; unfold route.
    + left. rewrite post_login_db, arrived_db. reflexivity.
    + destruct (post_register_db body (arrived s))
        as [H|[e [data [_ [_ [Hc _]]]]]].
      * left. rewrite H, arrived_db. reflexivity.
      * right. left. exists data. rewrite arrived_db in Hc. exact Hc.
    + destruct (post_become_member_users body (arrived s))
        as [H|[u [l' [Hu [Hup H]]]]].
      * left. rewrite H, arrived_db. reflexivity.
      * right. right. exists u, l'. rewrite arrived_db in Hup.
        split; [exact (arrived_user _ _ Hu)|]. split; assumption.
    + left. rewrite get_create_message_db, arrived_db. reflexivity.
    + left. rewrite post_create_message_users, arrived_db. reflexivity.
    + left. cbn. rewrite arrived_db. reflexivity.
    + left. rewrite post_delete_message_users, arrived_db. reflexivity.
  - left. unfold serve. rewrite app_pages_arrived, page_route_db, arrived_db.
    reflexivity.
Qed.

Lemma update_where_map {B} (g : User.t -> B) id f l l' :
  (forall x, g (f x) = g x) ->
  Prisma.update_where id f l = Some l' -> map g l' = map g l.
Proof.
  intros Hg. revert l'. induction l as [|x rest IH]; intros l' H; simpl in H;
    [discriminate|].
  destruct (User.id x =? id).
  - injection H as <-. simpl. rewrite Hg. reflexivity.
  - destruct (Prisma.update_where id f rest) as [rest'|]; [|discriminate].
    injection H as <-. simpl. rewrite (IH rest' eq_refl). reflexivity.
Qed.

Lemma Forall2_kept l : Forall2 kept_or_promoted l l.
Proof. induction l; constructor; [left; reflexivity | assumption]. Qed.

Lemma update_where_kept id l l' :
  Prisma.update_where id (User.set_is_member true) l = Some l' ->
  Forall2 kept_or_promoted l l'.
Proof.
  revert l'. induction l as [|x rest IH]; intros l' H; simpl in H;
    [discriminate|].
  destruct (User.id x =? id).
  - injection H as <-. constructor; [right; reflexivity | apply Forall2_kept].
  - destruct (Prisma.update_where id _ rest) as [rest'|]; [|discriminate].
    injection H as <-. constructor; [left; reflexivity | apply IH; reflexivity].
Qed.

(** X6. No request removes a user or takes anything back: after any
    request the users table is the old one, each record as it was or with
    [is_member] set, followed by at most one new user. In particular no
    existing user becomes admin, loses membership, or changes name, e-mail
    or password hash. *)
Theorem users_are_kept : forall now r s,
  exists kept added,
    Prisma.users (db (fst (serve now r s))) = (kept ++ added)%list
    /\ Forall2 kept_or_promoted (Prisma.users (db s)) kept
    /\ (length added <= 1)%nat.
Proof.
  intros now r s.
  destruct (serve_users now r s) as [H|[[data Hc]|[u [l' [_ [Hup H]]]]]].
  - exists (Prisma.users (db s)), []. rewrite H, app_nil_r.
    split; [reflexivity|]. split; [apply Forall2_kept | simpl; lia].
  - unfold Prisma.user_create in Hc.
    destruct (existsb _ (Prisma.users (db s))); [discriminate|].
    injection Hc as Hc. rewrite <- Hc. cbn [Prisma.users].
    eexists. eexists. split; [reflexivity|].
    split; [apply Forall2_kept | simpl; lia].
  - exists l', []. rewrite H, app_nil_r. split; [reflexivity|].
    split; [exact (update_where_kept _ _ _ Hup) | simpl; lia].
Qed.


(** ** What a request can do to the messages table *)

Lemma post_register_messages body s :
  Prisma.messages (db (fst (post_register body s))) = Prisma.messages (db s).
Proof.
  destruct (post_register_db body s) as [->|[e [data [_ [_ [Hc _]]]]]];
    [reflexivity|].
  unfold Prisma.user_create in Hc.
  destruct (existsb _ (Prisma.users (db s))); [discriminate|].
  injection Hc as Hc. rewrite <- Hc. reflexivity.
Qed.

Lemma post_become_member_messages body s :
  Prisma.messages (db (fst (post_become_member body s)))
  = Prisma.messages (db s).
Proof.
  remember (post_become_member body s) as out eqn:Ho.
  unfold post_become_member, ensureLoggedIn in Ho.
  destruct (user s) as [u|] eqn:Hu; [|subst out; reflexivity].
  destruct (Chains.become_member body) as [b errors].
  destruct errors as [|msg errors]; [|subst out; reflexivity].
  unfold try_catch, bind in Ho.
  destruct (negb (JS.strict_eq (MemberBody.secret_code b)
                    (MEMBER_SECRET_CODE env)));
    [subst out; reflexivity|].
  unfold req_user, prisma, Prisma.user_update_is_member in Ho.
  rewrite Hu in Ho.
  destruct (Prisma.update_where (User.id u) (User.set_is_member true)
              (Prisma.users (db s))) as [l'|] eqn:Hup.
  - cbn in Ho. rewrite Hu in Ho. cbn in Ho. subst out. reflexivity.
  - subst out. reflexivity.
Qed.

Lemma post_create_message_messages now body s :
  Prisma.messages (db (fst (post_create_message now body s)))
  = Prisma.messages (db s)
  \/ exists u title text,
       user s = Some u
       /\ User.is_member u = true
       /\ MessageBody.title body = JS.Str title
       /\ MessageBody.text body = JS.Str text
       /\ Prisma.messages (db (fst (post_create_message now body s)))
          = (Prisma.messages (db s) ++
               [Message.mk (Prisma.message_seq (db s) + 1) (JS.trim title)
                  (JS.trim text) now (User.id u)])%list.
Proof.
  remember (post_create_message now body s) as out eqn:Ho.
  unfold post_create_message, ensureLoggedIn in Ho.
  destruct (user s) as [u|] eqn:Hu; [|subst out; left; reflexivity].
  unfold bind at 1 in Ho. unfold req_user at 1 in Ho. rewrite Hu in Ho.
  destruct (User.is_member u) eqn:Hm; [|subst out; left; reflexivity].
  cbn [negb] in Ho.
  destruct (negb (JS.truthy (MessageBody.title body))
            || negb (JS.truthy (MessageBody.text body)));
    [subst out; left; reflexivity|].
  unfold try_catch, bind, js_trim, req_user, prisma, Prisma.message_create
    in Ho.
  destruct (MessageBody.title body) as [| |tb|title];
    try (subst out; left; reflexivity).
  destruct (MessageBody.text body) as [| |xb|text];
    try (subst out; left; reflexivity).
  cbn in Ho. rewrite Hu in Ho.
  destruct (existsb _ (Prisma.users (db s))).
  - subst out. right. exists u, title, text. repeat split. exact Hm.
  - subst out. left. reflexivity.
Qed.

Lemma post_delete_message_messages id s :
  Prisma.messages (db (fst (post_delete_message id s)))
  = Prisma.messages (db s)
  \/ exists u messageId,
       user s = Some u
       /\ User.is_admin u = true
       /\ JS.parseInt id = Some messageId
       /\ Prisma.messages (db (fst (post_delete_message id s)))
          = filter (fun m => negb (Message.id m =? messageId))
              (Prisma.messages (db s)).
Proof.
  remember (post_delete_message id s) as out eqn:Ho.
  unfold post_delete_message, ensureLoggedIn in Ho.
  destruct (user s) as [u|] eqn:Hu; [|subst out; left; reflexivity].
  unfold try_catch, bind, req_user in Ho. rewrite Hu in Ho.
  destruct (User.is_admin u) eqn:Ha; [|subst out; left; reflexivity].
  cbn [negb] in Ho.
  destruct (JS.parseInt id) as [messageId|] eqn:Hn;
    [|subst out; left; reflexivity].
  unfold prisma, Prisma.message_delete in Ho.
  destruct (existsb _ (Prisma.messages (db s))).
  - subst out. right. exists u, messageId. repeat split; assumption.
  - subst out. left. reflexivity.
Qed.

(** The three things a request does to the messages table: nothing, the
    [create] of a member, the [delete] of an admin. *)
Lemma serve_messages now r s :
  Prisma.messages (db (fst (serve now r s))) = Prisma.messages (db s)
  \/ (exists body u title text,
        r = inl (POST_create_message body)
        /\ principal s u
        /\ User.is_member u = true
        /\ MessageBody.title body = JS.Str title
        /\ MessageBody.text body = JS.Str text
        /\ Prisma.messages (db (fst (serve now r s)))
           = (Prisma.messages (db s) ++
                [Message.mk (Prisma.message_seq (db s) + 1) (JS.trim title)
                   (JS.trim text) now (User.id u)])%list)
  \/ (exists id u messageId,
        r = inl (POST_delete_message id)
        /\ principal s u
        /\ User.is_admin u = true
        /\ JS.parseInt id = Some messageId
        /\ Prisma.messages (db (fst (serve now r s)))
           = filter (fun m => negb (Message.id m =? messageId))
               (Prisma.messages (db s))).
Proof.
  destruct r as [r|r].
  - rewrite serve_inl. cbn [fst]. rewrite app_arrived.
    destruct r; unfold route.
    + left. rewrite post_login_db, arrived_db. reflexivity.
    + left. rewrite post_register_messages, arrived_db. reflexivity.
    + left. rewrite post_become_member_messages, arrived_db. reflexivity.
    + left. rewrite get_create_message_db, arrived_db. reflexivity.
    + destruct (post_create_message_messages now body (arrived s))
        as [H|[u [title [text [Hu [Hm [Ht [Hx H]]]]]]]].
      * left. rewrite H, arrived_db. reflexivity.
      * right. left. exists body, u, title, text. rewrite arrived_db in H.
        split; [reflexivity|]. split; [exact (arrived_user _ _ Hu)|].
        repeat split; assumption.
    + left. cbn. rewrite arrived_db. reflexivity.
    + destruct (post_delete_message_messages id (arrived s))
        as [H|[u [messageId [Hu [Ha [Hn H]]]]]].
      * left. rewrite H, arrived_db. reflexivity.
      * right. right. exists id, u, messageId. rewrite arrived_db in H.
        split; [reflexivity|]. split; [exact (arrived_user _ _ Hu)|].
        repeat split; assumption.
  - left. unfold serve. rewrite app_pages_arrived, page_route_db, arrived_db.
    reflexivity.
Qed.

(** X10. A message that was stored before a request and is not after it
    was deleted by an admin: the request is a [POST /delete-message/:id] of
    a principal with [is_admin], whose [id] parses to the id of the
    message. *)
Theorem message_removed_only_by_admin : forall now r s m,
  In m (Prisma.messages (db s)) ->
  ~ In m (Prisma.messages (db (fst (serve now r s)))) ->
  exists id u,
    r = inl (POST_delete_message id)
    /\ principal s u
    /\ User.is_admin u = true
    /\ JS.parseInt id = Some (Message.id m).
Proof.
  intros now r s m Hin Hout.
  destruct (serve_messages now r s)
    as [H|[[body [u [t [x [_ [_ [_ [_ [_ H]]]]]]]]]
          |[id [u [n [Hr [Hp [Ha [Hn H]]]]]]]]].
  - exfalso. apply Hout. rewrite H. exact Hin.
  - exfalso. apply Hout. rewrite H. apply in_or_app. left. exact Hin.
  - exists id, u. repeat split; try assumption.
    rewrite Hn. f_equal.
    destruct (Message.id m =? n) eqn:Heq; [apply Z.eqb_eq in Heq; auto|].
    exfalso. apply Hout. rewrite H. apply filter_In. rewrite Heq.
    split; [exact Hin | reflexivity].
Qed.

(** X11. A message that is stored after a request and was not before it
    was written by a member: the request is a [POST /create-message] of a
    principal with [is_member], and the message has the next id, the
    trimmed title and text of the form, the time of the request, and the
    principal as author. *)
Theorem message_added_only_by_member : forall now r s m,
  In m (Prisma.messages (db (fst (serve now r s)))) ->
  ~ In m (Prisma.messages (db s)) ->
  exists body u title text,
    r = inl (POST_create_message body)
    /\ principal s u
    /\ User.is_member u = true
    /\ MessageBody.title body = JS.Str title
    /\ MessageBody.text body = JS.Str text
    /\ m = Message.mk (Prisma.message_seq (db s) + 1) (JS.trim title)
             (JS.trim text) now (User.id u).
Proof.
  intros now r s m Hin Hout.
  destruct (serve_messages now r s)
    as [H|[[body [u [t [x [Hr [Hp [Hm [Ht [Hx H]]]]]]]]]
          |[id [u [n [_ [_ [_ [_ H]]]]]]]]].
  - exfalso. apply Hout. rewrite <- H. exact Hin.
  - rewrite H in Hin. apply in_app_or in Hin.
    destruct Hin as [Hin|[<-|[]]]; [contradiction|].
    exists body, u, t, x. repeat split; assumption.
  - exfalso. apply Hout. rewrite H in Hin. apply filter_In in Hin. tauto.
Qed.


(** ** Deleting a message *)

(** X12. An admin deletes any message, whoever wrote it: when the [id]
    parses to the id of a stored message, the answer is the redirect to
    [/messages] with the success message, the messages with that id are
    gone, every other message is still there, and the users are
    untouched. *)
Theorem admin_deletes_any_message : forall now id s u messageId,
  principal s u ->
  User.is_admin u = true ->
  JS.parseInt id = Some messageId ->
  (exists m, In m (Prisma.messages (db s)) /\ Message.id m = messageId) ->
  let out := app now (POST_delete_message id) s in
  snd out = Returned (redirect "/messages")
  /\ flash (fst out) =
       (unread (flash s) ++
          [("successMessage", Text "Message deleted successfully.")])%list
  /\ (forall m, In m (Prisma.messages (db (fst out)))
                <-> In m (Prisma.messages (db s)) /\ Message.id m <> messageId)
  /\ Prisma.users (db (fst out)) = Prisma.users (db s).
Proof.
  intros now id s u messageId Hp Ha Hn [m0 [Hin0 Hid0]]. cbv zeta.
  assert (Hex : existsb (fun m => Message.id m =? messageId)
                  (Prisma.messages (db s)) = true).
  { apply existsb_exists. exists m0. split; [exact Hin0|].
    apply Z.eqb_eq. exact Hid0. }
  assert (Hout :
    app now (POST_delete_message id) s =
      (mkReq
         (Prisma.mkDB (Prisma.users (db s))
            (filter (fun m => negb (Message.id m =? messageId))
               (Prisma.messages (db s)))
            (Prisma.user_seq (db s)) (Prisma.message_seq (db s)))
         (session s) (Some u)
         (unread (flash s) ++
            [("successMessage", Text "Message deleted successfully.")]),
       Returned (redirect "/messages"))).
  { rewrite (app_principal _ _ _ _ Hp).
    unfold route, post_delete_message. rewrite ensureLoggedIn_entered.
    unfold try_catch, bind, req_user. cbn [entered user].
    rewrite Ha, Hn. cbn [negb].
    unfold prisma, Prisma.message_delete. cbn [entered db].
    rewrite Hex. reflexivity. }
  rewrite Hout. cbn [fst snd db flash Prisma.messages Prisma.users].
  split; [reflexivity|]. split; [reflexivity|]. split; [|reflexivity].
  intros m. rewrite filter_In, negb_true_iff, Z.eqb_neq. reflexivity.
Qed.

Lemma digit_is_no_space c : JS.is_digit c = true -> JS.is_space c = false.
Proof.
  unfold JS.is_digit, JS.is_space. cbv zeta.
  generalize (Z.of_nat (nat_of_ascii c)). intros n H.
  apply andb_true_iff in H. destruct H as [H1 H2].
  apply Z.leb_le in H1. apply Z.leb_le in H2.
  apply orb_false_iff. split.
  - apply Z.eqb_neq. lia.
  - apply andb_false_iff. right. apply Z.leb_gt. lia.
Qed.

Lemma digits_ignores_tail ds tail acc seen :
  JS.forallb_string JS.is_digit ds = true ->
  not_a_digit_first tail = true ->
  JS.digits (ds ++ tail) acc seen = JS.digits ds acc seen.
Proof.
  revert acc seen. induction ds as [|c rest IH]; intros acc seen Hds Htail.
  - simpl. destruct tail as [|c t]; [reflexivity|]. simpl in *.
    apply negb_true_iff in Htail. rewrite Htail. reflexivity.
  - simpl in Hds. apply andb_true_iff in Hds. destruct Hds as [Hc Hrest].
    simpl. rewrite Hc. apply IH; assumption.
Qed.

(** A string that starts with a digit has neither white space nor a sign
    to skip. *)
Lemma parseInt_digit_first c rest :
  JS.is_digit c = true ->
  JS.parseInt (String c rest) = JS.digits (String c rest) 0 false.
Proof.
  intros Hc. unfold JS.parseInt. cbn [JS.trimStart].
  rewrite (digit_is_no_space _ Hc).
  destruct c as [[] [] [] [] [] [] [] []]; try reflexivity;
    vm_compute in Hc; discriminate Hc.
Qed.

(** X13. [parseInt] reads the digits an [:id] starts with and ignores what
    follows them: a request for [/delete-message/] followed by digits and
    then any text that does not start with a digit is answered as the
    request with the digits alone. *)
Theorem delete_message_reads_leading_digits : forall now ds tail s,
  Validator.nonempty ds = true ->
  JS.forallb_string JS.is_digit ds = true ->
  not_a_digit_first tail = true ->
  JS.parseInt (ds ++ tail) = JS.parseInt ds
  /\ app now (POST_delete_message (ds ++ tail)) s
     = app now (POST_delete_message ds) s.
Proof.
  intros now ds tail s Hne Hds Htail.
  assert (Hparse : JS.parseInt (ds ++ tail) = JS.parseInt ds).
  { destruct ds as [|c rest]; [discriminate|].
    pose proof Hds as Hds'. simpl in Hds'. apply andb_true_iff in Hds'.
    destruct Hds' as [Hc _].
    change (String c rest ++ tail) with (String c (rest ++ tail)).
    rewrite !(parseInt_digit_first _ _ Hc).
    change (String c (rest ++ tail)) with (String c rest ++ tail).
    apply digits_ignores_tail; assumption. }
  split; [exact Hparse|].
  unfold app, route, post_delete_message. rewrite Hparse. reflexivity.
Qed.

(** ** Promotion, again *)

Lemma update_where_others id f l l' x :
  Prisma.update_where id f l = Some l' ->
  In x l -> User.id x <> id -> In x l'.
Proof.
  revert l'. induction l as [|y rest IH]; intros l' Hup Hin Hx; [contradiction|].
  simpl in Hup. destruct (User.id y =? id) eqn:Hy.
  - injection Hup as <-. destruct Hin as [->|Hin].
    + apply Z.eqb_eq in Hy. contradiction.
    + right. exact Hin.
  - destruct (Prisma.update_where id f rest) as [rest'|]; [|discriminate].
    injection Hup as <-. destruct Hin as [->|Hin]; [left; reflexivity|].
    right. apply (IH rest' eq_refl Hin Hx).
Qed.

(** X14. A promotion with the correct code touches the principal's record
    alone: every user with another id is in the table as before, no
    [is_admin] changes, the messages are untouched, and the session
    resolves to the principal's record with [is_member] set, so the next
    request sees the promotion. *)
Theorem promotion_changes_only_the_principal : forall now body s u,
  principal s u ->
  snd (Chains.become_member body) = [] ->
  JS.strict_eq
    (JS.Str (JS.trim (JS.toString (MemberBody.secret_code body))))
    (MEMBER_SECRET_CODE env) = true ->
  let out := app now (POST_become_member body) s in
  (forall x, In x (Prisma.users (db s)) -> User.id x <> User.id u ->
             In x (Prisma.users (db (fst out))))
  /\ map User.is_admin (Prisma.users (db (fst out)))
     = map User.is_admin (Prisma.users (db s))
  /\ Prisma.messages (db (fst out)) = Prisma.messages (db s)
  /\ principal (fst out) (User.set_is_member true u).
Proof.
  intros now body s u Hp Hv Hcode. cbv zeta.
  destruct (become_member_success now body s u Hp Hv Hcode)
    as [d' [Hup [Happ Hp']]].
  split; [|split; [|split; [|exact Hp']]]; rewrite Happ; cbn [fst db];
    unfold Prisma.user_update_is_member in Hup;
    destruct (Prisma.update_where (User.id u) (User.set_is_member true)
                (Prisma.users (db s))) as [l'|] eqn:Hl; try discriminate;
    injection Hup as <-; cbn [Prisma.users Prisma.messages].
  - intros x Hin Hx. exact (update_where_others _ _ _ _ _ Hl Hin Hx).
  - apply (update_where_map User.is_admin _ _ _ _
             (fun x => match x with User.mk _ _ _ _ _ _ _ _ => eq_refl end) Hl).
  - reflexivity.
Qed.


(** ** The flash messages a page reads *)

Lemma set_flash_same s : set_flash (flash s) s = s.
Proof. destruct s; reflexivity. Qed.

Lemma unread_has_no key f :
  String.eqb key "error" || String.eqb key "successMessage" = true ->
  filter (fun kv => String.eqb (fst kv) key) (unread f) = []
  /\ filter (fun kv => negb (String.eqb (fst kv) key)) (unread f) = unread f.
Proof.
  intros Hkey. induction f as [|[k v] rest [IH1 IH2]]; [split; reflexivity|].
  unfold unread in *. cbn [filter fst].
  destruct (String.eqb k "error" || String.eqb k "successMessage") eqn:Hk;
    cbn [negb]; [split; assumption|].
  assert (Hne : String.eqb k key = false).
  { destruct (String.eqb k key) eqn:Heq; [|reflexivity].
    apply String.eqb_eq in Heq. subst k. congruence. }
  cbn [filter fst]. rewrite Hne. cbn [negb]. rewrite IH1, IH2.
  split; reflexivity.
Qed.

(** Reading the [error] or the [successMessage] flashes in a route finds
    none and changes nothing: the middleware has read them. *)
Lemma read_after_middleware key s :
  String.eqb key "error" || String.eqb key "successMessage" = true ->
  req_flash_read key (arrived s) = (arrived s, Returned []).
Proof.
  intros Hkey. unfold req_flash_read. rewrite arrived_flash.
  destruct (unread_has_no key (flash s) Hkey) as [-> ->].
  rewrite <- arrived_flash, set_flash_same. reflexivity.
Qed.

Lemma unread_keeps key f :
  String.eqb key "error" || String.eqb key "successMessage" = false ->
  filter (fun kv => String.eqb (fst kv) key) (unread f)
  = filter (fun kv => String.eqb (fst kv) key) f.
Proof.
  intros Hkey. induction f as [|[k v] rest IH]; [reflexivity|].
  unfold unread in *. cbn [filter fst].
  destruct (String.eqb k "error" || String.eqb k "successMessage") eqn:Hk;
    cbn [negb].
  - assert (Hne : String.eqb k key = false).
    { destruct (String.eqb k key) eqn:Heq; [|reflexivity].
      apply String.eqb_eq in Heq. subst k. congruence. }
    rewrite Hne. exact IH.
  - cbn [filter fst]. destruct (String.eqb k key); rewrite IH; reflexivity.
Qed.

Lemma unread_success_has_no_error f :
  filter (fun kv => String.eqb (fst kv) "error")
    (filter (fun kv => negb (String.eqb (fst kv) "success")) (unread f)) = []
  /\ filter (fun kv => negb (String.eqb (fst kv) "error"))
       (filter (fun kv => negb (String.eqb (fst kv) "success")) (unread f))
     = filter (fun kv => negb (String.eqb (fst kv) "success")) (unread f).
Proof.
  induction f as [|[k v] rest [IH1 IH2]]; [split; reflexivity|].
  unfold unread in *. cbn [filter fst].
  destruct (String.eqb k "error") eqn:Hk; cbn [orb negb];
    [split; assumption|].
  destruct (String.eqb k "successMessage"); cbn [negb]; [split; assumption|].
  cbn [filter fst]. destruct (String.eqb k "success"); cbn [negb];
    [split; assumption|].
  cbn [filter fst]. rewrite Hk. cbn [negb]. rewrite IH2.
  split; [exact IH1 | reflexivity].
Qed.

Lemma get_login_arrived s :
  get_login (arrived s) =
    (set_flash
       (filter (fun kv => negb (String.eqb (fst kv) "success"))
          (unread (flash s)))
       (arrived s),
     Returned
       (page "login"
          [("title", L_value (JS.Str "Login"));
           ("successMessage",
            L_flashed
              (map snd
                 (filter (fun kv => String.eqb (fst kv) "success") (flash s))));
           ("error", L_flashed [])])).
Proof.
  unfold get_login, bind. unfold req_flash_read at 1.
  rewrite arrived_flash, (unread_keeps "success" (flash s) eq_refl).
  unfold req_flash_read. cbn [flash set_flash].
  destruct (unread_success_has_no_error (flash s)) as [-> ->].
  destruct (arrived s); reflexivity.
Qed.

Lemma get_register_error s :
  exists s' form,
    get_register (arrived s) =
      (s', Returned
             (page "register"
                [("title", L_value (JS.Str "Register"));
                 ("error", L_flashed []);
                 ("formData", L_form form)])).
Proof.
  unfold get_register, bind.
  rewrite (read_after_middleware "error" s eq_refl).
  unfold req_flash_read. eexists. eexists. reflexivity.
Qed.

Lemma get_become_member_entered s u :
  principal s u ->
  get_become_member (arrived s) =
    (arrived s,
     Returned
       (page "become-member"
          [("title", L_value (JS.Str "Become a Member"));
           ("error", L_flashed []);
           ("successMessage", L_flashed [])])).
Proof.
  intros Hp. unfold get_become_member, ensureLoggedIn_page.
  rewrite (arrived_principal _ _ Hp) at 1. cbn [entered user].
  unfold bind.
  rewrite (read_after_middleware "error" s eq_refl).
  rewrite (read_after_middleware "successMessage" s eq_refl).
  reflexivity.
Qed.

(** ** The message list *)

Lemma insert_desc_perm m l : Permutation (PrismaRead.insert_desc m l) (m :: l).
Proof.
  induction l as [|x rest IH]; simpl; [apply Permutation_refl|].
  destruct (Message.created_at x <=? Message.created_at m).
  - apply Permutation_refl.
  - apply perm_trans with (x :: m :: rest).
    + apply perm_skip. exact IH.
    + apply perm_swap.
Qed.

Lemma order_desc_perm l : Permutation (PrismaRead.order_desc l) l.
Proof.
  induction l as [|m rest IH]; simpl; [apply perm_nil|].
  apply perm_trans with (m :: PrismaRead.order_desc rest).
  - apply insert_desc_perm.
  - apply perm_skip. exact IH.
Qed.

Lemma insert_desc_sorted m l :
  Sorted (fun a b => Message.created_at b <= Message.created_at a) l ->
  Sorted (fun a b => Message.created_at b <= Message.created_at a)
    (PrismaRead.insert_desc m l).
Proof.
  induction l as [|x rest IH]; intros Hs; simpl.
  - constructor; constructor.
  - destruct (Z.leb_spec (Message.created_at x) (Message.created_at m)).
    + constructor; [exact Hs | constructor; assumption].
    + inversion Hs as [|? ? Hrest Hhd]; subst.
      constructor; [apply IH; exact Hrest|].
      destruct rest as [|y rest']; simpl.
      * constructor. lia.
      * inversion Hhd; subst.
        destruct (Message.created_at y <=? Message.created_at m);
          constructor; [lia | assumption].
Qed.

Lemma order_desc_sorted l :
  StronglySorted (fun a b => Message.created_at b <= Message.created_at a)
    (PrismaRead.order_desc l).
Proof.
  apply Sorted_StronglySorted.
  - intros a b c Hab Hbc. lia.
  - induction l as [|m rest IH]; simpl; [constructor|].
    apply insert_desc_sorted. exact IH.
Qed.

Lemma views_sorted d u l :
  StronglySorted (fun a b => Message.created_at b <= Message.created_at a) l ->
  StronglySorted newest_first (map (view_of d u) l).
Proof.
  induction 1 as [|m rest Hrest IH Hall]; simpl; constructor; [exact IH|].
  apply Forall_map. apply (Forall_impl _ (fun x Hx => Hx) Hall).
Qed.

Lemma get_messages_entered s u :
  principal s u ->
  get_messages (arrived s) =
    (arrived s,
     Returned
       (page "dashboard"
          [("title", L_value (JS.Str "Messages"));
           ("messages",
            L_messages
              (map (view_of (db s) u)
                 (PrismaRead.order_desc (Prisma.messages (db s)))));
           ("successMessage", L_flashed []);
           ("error", L_flashed [])])).
Proof.
  intros Hp. unfold get_messages, ensureLoggedIn_page.
  rewrite (arrived_principal _ _ Hp) at 1. cbn [entered user].
  unfold try_catch. unfold bind at 1. unfold get_db at 1.
  rewrite arrived_db. unfold PrismaRead.message_findMany.
  assert (Hviews :
    (messages <-
       match map (fun m => (m, PrismaRead.author (db s) m))
               (PrismaRead.order_desc (Prisma.messages (db s))) with
       | [] => ret []
       | _ :: _ =>
           u0 <- req_user ;;
           ret (map (fun msg =>
                       MessageView.mk (Message.id (fst msg))
                         (Message.title (fst msg)) (Message.content (fst msg))
                         (Message.created_at (fst msg)) (snd msg)
                         (User.is_admin u0))
                  (map (fun m => (m, PrismaRead.author (db s) m))
                     (PrismaRead.order_desc (Prisma.messages (db s)))))
       end ;;
     ret messages) (arrived s)
    = (arrived s,
       Returned (map (view_of (db s) u)
                   (PrismaRead.order_desc (Prisma.messages (db s)))))).
  { unfold bind, req_user.
    destruct (PrismaRead.order_desc (Prisma.messages (db s))) as [|m rest];
      [reflexivity|].
    cbn [map]. rewrite (arrived_principal _ _ Hp) at 1. cbn [entered user].
    unfold ret. f_equal. f_equal. cbn [map fst snd]. f_equal.
    rewrite map_map. reflexivity. }
  unfold bind in Hviews |- *.
  destruct (match map (fun m => (m, PrismaRead.author (db s) m))
                    (PrismaRead.order_desc (Prisma.messages (db s))) with
            | [] => ret []
            | _ :: _ => _
            end (arrived s)) as [s1 [views|e]] eqn:Hm;
    cbn in Hviews; [|discriminate].
  injection Hviews as -> ->.
  rewrite (read_after_middleware "successMessage" s eq_refl).
  rewrite (read_after_middleware "error" s eq_refl).
  reflexivity.
Qed.


(** X15. [GET /messages] for a logged-in principal renders the dashboard
    with every stored message exactly once, each with its title, content,
    time, author's names and the principal's [is_admin], and no message
    comes before a newer one. Nothing is written. *)
Theorem messages_are_listed_newest_first : forall now s u,
  principal s u ->
  exists views,
    serve now (inr GET_messages) s =
      (entered s (Some u),
       Returned
         (page "dashboard"
            [("title", L_value (JS.Str "Messages"));
             ("messages", L_messages views);
             ("successMessage", L_flashed []);
             ("error", L_flashed [])]))
    /\ Permutation views
         (map (view_of (db s) u) (Prisma.messages (db s)))
    /\ StronglySorted newest_first views.
Proof.
  intros now s u Hp.
  exists (map (view_of (db s) u)
            (PrismaRead.order_desc (Prisma.messages (db s)))).
  split; [|split].
  - unfold serve. rewrite app_pages_arrived. unfold page_route.
    rewrite (get_messages_entered _ _ Hp), (arrived_principal _ _ Hp).
    reflexivity.
  - apply Permutation_map. apply order_desc_perm.
  - apply views_sorted. apply order_desc_sorted.
Qed.

(** X16. The [error] flashes never reach the page that would show them.
    The [res.locals] middleware reads them first, which removes them, so
    every page is rendered with an empty [error] array, and the dashboard
    and the become-member page with an empty [successMessage] array too,
    whatever was flashed. The login page does get what was flashed under
    [success], a key the middleware does not read. *)
Theorem pages_get_no_flashed_errors : forall now r s view locals,
  snd (serve now (inr r) s) = Returned (page view locals) ->
  (forall msgs, In ("error", L_flashed msgs) locals -> msgs = [])
  /\ (forall msgs, In ("successMessage", L_flashed msgs) locals ->
      r = GET_login
      /\ msgs = map snd
                  (filter (fun kv => String.eqb (fst kv) "success") (flash s))
      \/ msgs = []).
Proof.
  intros now r s view locals. unfold serve. rewrite app_pages_arrived.
  destruct r; unfold page_route.
  - cbn. intros H. injection H as <- <-. split; intros msgs Hm; [|right];
      cbn in Hm; destruct Hm as [Hm|[]]; discriminate.
  - destruct (get_register_error s) as [s' [form ->]]. cbn.
    intros H. injection H as <- <-. split; intros msgs Hm; [|right];
      cbn in Hm; destruct Hm as [Hm|[Hm|[Hm|[]]]]; try discriminate;
      injection Hm as <-; reflexivity.
  - rewrite get_login_arrived. cbn [snd].
    intros H. injection H as <- <-. split; intros msgs Hm;
      cbn in Hm; destruct Hm as [Hm|[Hm|[Hm|[]]]]; try discriminate.
    + injection Hm as <-. reflexivity.
    + injection Hm as <-. left. split; reflexivity.
  - destruct (arrived_cases s) as [[u [Hp Ha]]|[Hanon Ha]].
    + rewrite (get_become_member_entered _ _ Hp). cbn [snd].
      intros H. injection H as <- <-. split; intros msgs Hm; [|right];
        cbn in Hm; destruct Hm as [Hm|[Hm|[Hm|[]]]]; try discriminate;
        injection Hm as <-; reflexivity.
    + rewrite Ha. cbn. discriminate.
  - destruct (arrived_cases s) as [[u [Hp Ha]]|[Hanon Ha]].
    + rewrite (get_messages_entered _ _ Hp). cbn [snd].
      intros H. injection H as <- <-. split; intros msgs Hm; [|right];
        cbn in Hm; destruct Hm as [Hm|[Hm|[Hm|[Hm|[]]]]]; try discriminate;
        injection Hm as <-; reflexivity.
    + rewrite Ha. cbn. discriminate.
  - cbn. discriminate.
  - cbn. discriminate.
Qed.


(** ** A registration that fails *)

Lemma post_register_failure body s :
  snd (post_register body s) = Returned (redirect "/register") ->
  exists msg,
    fst (post_register body s) =
      set_flash
        (flash s ++
           [("error", Text msg);
            ("formData",
             FormData (fst (Chains.register isEmail normalizeEmail body)))])
        s.
Proof.
  remember (post_register body s) as out eqn:Ho. intros Hr.
  unfold post_register in Ho.
  pose proof (register_chain_body body) as Hb.
  destruct (Chains.register isEmail normalizeEmail body) as [b errors].
  cbn [fst] in *. subst b.
  destruct errors as [|msg errors].
  2:{ subst out. exists msg. cbn. unfold set_flash. cbn.
      rewrite <- app_assoc. reflexivity. }
  unfold Chains.sanitized_email in *.
  destruct (normalizeEmail (JS.trim (JS.toString (RegisterBody.email body))))
    as [e|] eqn:He.
  2:{ subst out. eexists. cbn. unfold set_flash. cbn.
      rewrite <- app_assoc. reflexivity. }
  unfold try_catch, bind, js_trim, get_db, ret in Ho.
  cbn [RegisterBody.username RegisterBody.email RegisterBody.first_name
       RegisterBody.last_name RegisterBody.password RegisterBody.admin_code]
    in Ho.
  destruct (Prisma.user_findFirst (db s) _ (JS.trim e)) eqn:Hfind.
  { subst out. eexists. cbn. unfold set_flash. cbn.
    rewrite <- app_assoc. reflexivity. }
  unfold hash in Ho.
  destruct (RegisterBody.password body) as [| |pb|p];
    try (subst out; eexists; cbn; unfold set_flash; cbn;
         rewrite <- app_assoc; reflexivity).
  unfold ret, prisma in Ho.
  match type of Ho with
  | context [Prisma.user_create (db s) ?data] =>
      destruct (Prisma.user_create (db s) data) as [d'|ex] eqn:Hc
  end.
  - subst out. cbn in Hr. discriminate.
  - subst out. eexists. cbn. unfold set_flash. cbn.
    rewrite <- app_assoc. reflexivity.
Qed.

(** X17. A registration that is answered with the redirect to [/register]
    (a validation error, a conflict or an exception) has written nothing to
    the database and has flashed the form as the chain left it, the
    password and its confirmation in it as they were submitted. When no
    other form was waiting in the session, the next [GET /register] renders
    the page with that form and an empty [error] array. *)
Theorem failed_registration_hands_back_the_form : forall now body s,
  snd (app now (POST_register body) s) = Returned (redirect "/register") ->
  filter (fun kv => String.eqb (fst kv) "formData") (flash s) = [] ->
  let failed := fst (app now (POST_register body) s) in
  let form := fst (Chains.register isEmail normalizeEmail body) in
  RegisterBody.password form = RegisterBody.password body
  /\ RegisterBody.confirm_password form = RegisterBody.confirm_password body
  /\ In ("formData", FormData form) (flash failed)
  /\ db failed = db s
  /\ snd (serve now (inr GET_register) failed) =
       Returned
         (page "register"
            [("title", L_value (JS.Str "Register"));
             ("error", L_flashed []);
             ("formData", L_form (Some (FormData form)))]).
Proof.
  intros now body s Hr Hnone. cbv zeta.
  rewrite app_arrived in *. unfold route in *.
  destruct (post_register_failure body (arrived s) Hr) as [msg Hf].
  rewrite Hf. rewrite arrived_flash. cbn [flash set_flash db].
  split; [reflexivity|]. split; [reflexivity|]. split.
  { apply in_or_app. right. right. left. reflexivity. }
  split; [apply arrived_db|].
  unfold serve. rewrite app_pages_arrived. unfold page_route.
  unfold get_register, bind.
  rewrite (read_after_middleware "error" _ eq_refl).
  unfold req_flash_read. rewrite arrived_flash.
  rewrite (unread_keeps "formData" _ eq_refl). cbn [flash set_flash].
  rewrite filter_app, (unread_keeps "formData" _ eq_refl), Hnone.
  reflexivity.
Qed.


(** ** The four answers to a registration *)

Lemma post_register_invalid body s msg rest :
  snd (Chains.register isEmail normalizeEmail body) = msg :: rest ->
  post_register body s =
    (set_flash
       (flash s ++
          [("error", Text msg);
           ("formData",
            FormData (fst (Chains.register isEmail normalizeEmail body)))])
       s,
     Returned (redirect "/register")).
Proof.
  intros Hv. unfold post_register.
  destruct (Chains.register isEmail normalizeEmail body) as [b errors].
  cbn [snd fst] in *. subst errors.
  cbn. unfold set_flash. cbn. rewrite <- app_assoc. reflexivity.
Qed.

Lemma post_register_unnormalised body s :
  snd (Chains.register isEmail normalizeEmail body) = [] ->
  normalizeEmail (JS.trim (JS.toString (RegisterBody.email body))) = None ->
  post_register body s =
    (set_flash
       (flash s ++
          [("error",
            Text "An error occurred during registration. Please try again.");
           ("formData",
            FormData (fst (Chains.register isEmail normalizeEmail body)))])
       s,
     Returned (redirect "/register")).
Proof.
  intros Hv He. unfold post_register.
  pose proof (register_chain_body body) as Hb.
  destruct (Chains.register isEmail normalizeEmail body) as [b errors].
  cbn [fst] in *. cbn [snd] in Hv. subst b errors.
  unfold Chains.sanitized_email. rewrite He.
  cbn. unfold set_flash. cbn. rewrite <- app_assoc. reflexivity.
Qed.

(** X5. [POST /register] has four answers and no other. A form the chain
    refuses is sent back with the chain's first message. A form whose
    e-mail [normalizeEmail] answers [false] for is sent back with the
    generic error, [email.trim()] having thrown. Otherwise the username and
    the e-mail decide: when a stored user has one of them the form is sent
    back with the message that they exist, and when none has, the user is
    created and the answer is the redirect to [/login]; the generic error
    is never the answer there, so the handler's own lookup leaves the
    database nothing to refuse. *)
Theorem register_outcomes : forall now body s,
  let out := app now (POST_register body) s in
  let form := fst (Chains.register isEmail normalizeEmail body) in
  let sent_back msg :=
    (set_flash
       (unread (flash s) ++ [("error", Text msg); ("formData", FormData form)])
       (arrived s),
     Returned (redirect "/register")) in
  match snd (Chains.register isEmail normalizeEmail body) with
  | msg :: _ => out = sent_back msg
  | [] =>
      match normalizeEmail (JS.trim (JS.toString (RegisterBody.email body))) with
      | None =>
          out = sent_back
                  "An error occurred during registration. Please try again."
      | Some e =>
          ((exists u,
              In u (Prisma.users (db s))
              /\ (User.username u
                  = JS.trim (JS.toString (RegisterBody.username body))
                  \/ User.email u = JS.trim e))
           /\ out = sent_back
                      "Username or email already exists. Please choose different ones.")
          \/ ((forall u,
                 In u (Prisma.users (db s)) ->
                 User.username u
                 <> JS.trim (JS.toString (RegisterBody.username body))
                 /\ User.email u <> JS.trim e)
              /\ snd out = Returned (redirect "/login")
              /\ exists u,
                   Prisma.users (db (fst out))
                   = (Prisma.users (db s) ++ [u])%list
                   /\ User.username u
                      = JS.trim (JS.toString (RegisterBody.username body))
                   /\ User.email u = JS.trim e)
      end
  end.
Proof.
  intros now body s. cbv zeta. rewrite app_arrived. unfold route.
  destruct (snd (Chains.register isEmail normalizeEmail body))
    as [|msg rest] eqn:Hv.
  2:{ rewrite (post_register_invalid _ _ _ _ Hv), arrived_flash. reflexivity. }
  destruct (normalizeEmail (JS.trim (JS.toString (RegisterBody.email body))))
    as [e|] eqn:He.
  2:{ rewrite (post_register_unnormalised _ _ Hv He), arrived_flash.
      reflexivity. }
  destruct (Prisma.user_findFirst (db (arrived s))
              (JS.trim (JS.toString (RegisterBody.username body))) (JS.trim e))
    as [found|] eqn:Hfind.
  - left. pose proof Hfind as Hsome. apply user_findFirst_some in Hsome.
    rewrite arrived_db in Hsome. destruct Hsome as [Hin Hdup].
    split; [exists found; split; assumption|].
    rewrite <- (trim_idempotent (JS.toString (RegisterBody.username body)))
      in Hfind.
    rewrite (post_register_conflict _ _ _ _ Hv He Hfind), arrived_flash.
    reflexivity.
  - right. destruct (register_valid_password body Hv) as [p Hp].
    rewrite (post_register_success _ _ _ _ Hv He Hp Hfind).
    split; [|split; [reflexivity|]].
    + intros u Hin. unfold Prisma.user_findFirst in Hfind.
      rewrite arrived_db in Hfind.
      pose proof (find_none _ _ Hfind u Hin) as Hno. cbn in Hno.
      apply orb_false_iff in Hno. destruct Hno as [Hn Hm].
      split; apply String.eqb_neq; assumption.
    + cbn [fst db Prisma.users]. rewrite arrived_db. eexists.
      split; [reflexivity|]. split; reflexivity.
Qed.


End Routes.

(** * The properties on the sample instance *)

Lemma principal_as_alice : principal Sample.as_alice Sample.alice.
Proof. exists 1. split; reflexivity. Defined.

Lemma principal_as_bob : principal Sample.as_bob Sample.bob.
Proof. exists 2. split; reflexivity. Defined.

Lemma principal_as_carol : principal Sample.as_carol Sample.carol.
Proof. exists 3. split; reflexivity. Defined.

(** C1, the claim as stated fails. Over the same database, a login with an
    unknown identifier and a login with a known one and a wrong password
    flash different messages. *)
Lemma login_messages_differ :
  let run := app Sample.env Sample.bcrypt_hash Sample.bcrypt_compare
               Sample.isEmail Sample.normalizeEmail 100 in
  let unknown := run (POST_login (LoginBody.mk (JS.Str "zoe") (JS.Str "pw")))
                     Sample.anonymous in
  let wrong := run (POST_login (LoginBody.mk (JS.Str "alice") (JS.Str "pw")))
                   Sample.anonymous in
  Prisma.user_findFirst Sample.database "zoe" "zoe" = None
  /\ Prisma.user_findFirst Sample.database "alice" "alice" = Some Sample.alice
  /\ Sample.bcrypt_compare "pw" (User.password Sample.alice) = false
  /\ flash (fst unknown) = [("error", Text "User not found")]
  /\ flash (fst wrong) = [("error", Text "Invalid password")]
  /\ flash (fst unknown) <> flash (fst wrong).
Proof.
  cbv zeta. repeat split; try reflexivity.
  vm_compute. discriminate.
Qed.

Lemma login_failure_messages_witness :
  let run := app Sample.env Sample.bcrypt_hash Sample.bcrypt_compare
               Sample.isEmail Sample.normalizeEmail 100 in
  run (POST_login (LoginBody.mk (JS.Str "zoe") (JS.Str "pw"))) Sample.anonymous
    = (mkReq Sample.database None None [("error", Text "User not found")],
       Returned (redirect "/login"))
  /\ run (POST_login (LoginBody.mk (JS.Str "alice") (JS.Str "pw")))
         Sample.anonymous
    = (mkReq Sample.database None None [("error", Text "Invalid password")],
       Returned (redirect "/login")).
Proof.
  split.
  - apply (proj1 (login_failure_messages Sample.env Sample.bcrypt_hash
                    Sample.bcrypt_compare Sample.isEmail Sample.normalizeEmail
                    100 (LoginBody.mk (JS.Str "zoe") (JS.Str "pw")) "pw"
                    Sample.anonymous eq_refl eq_refl)).
    reflexivity.
  - apply (proj2 (login_failure_messages Sample.env Sample.bcrypt_hash
                    Sample.bcrypt_compare Sample.isEmail Sample.normalizeEmail
                    100 (LoginBody.mk (JS.Str "alice") (JS.Str "pw")) "pw"
                    Sample.anonymous eq_refl eq_refl) Sample.alice);
      reflexivity.
Defined.

(** C3, the code on a blank title. Bob is a member; his message has a title
    of three spaces and the text [hello]. The title is a non-empty string,
    so the check on [!title || !text] lets it through, and the message is
    stored with the trimmed title: the empty string. *)
Theorem create_message_blank_title_is_persisted :
  app Sample.env Sample.bcrypt_hash Sample.bcrypt_compare Sample.isEmail
      Sample.normalizeEmail 100
      (POST_create_message (MessageBody.mk (JS.Str "   ") (JS.Str "hello")))
      Sample.as_bob
  = (mkReq
       (Prisma.mkDB [Sample.alice; Sample.bob; Sample.carol]
          [Message.mk 1 "Hello" "First post" 50 2;
           Message.mk 2 EmptyString "hello" 100 2] 3 2)
       (Some 2) (Some Sample.bob)
       [("successMessage", Text "Message created successfully!")],
     Returned (redirect "/messages"))
  /\ JS.trim "   " = EmptyString.
Proof. split; reflexivity. Qed.

(** C4, the claim as stated fails. Alice is logged in and is not a member;
    her [POST /create-message] is answered with status 403 and a text, which
    is no redirect. *)
Lemma create_message_post_is_not_redirected :
  let out := app Sample.env Sample.bcrypt_hash Sample.bcrypt_compare
               Sample.isEmail Sample.normalizeEmail 100
               (POST_create_message
                  (MessageBody.mk (JS.Str "Title") (JS.Str "Text")))
               Sample.as_alice in
  principal Sample.as_alice Sample.alice
  /\ User.is_member Sample.alice = false
  /\ snd out = Returned (send 403 "Only members can create messages.")
  /\ (forall url, snd out <> Returned (redirect url))
  /\ flash (fst out) = [].
Proof.
  cbv zeta. split; [exact principal_as_alice|].
  repeat split; try reflexivity. intros url H. vm_compute in H. discriminate.
Qed.

Lemma create_message_non_member_witness :
  let run := app Sample.env Sample.bcrypt_hash Sample.bcrypt_compare
               Sample.isEmail Sample.normalizeEmail 100 in
  let body := MessageBody.mk (JS.Str "Title") (JS.Str "Text") in
  principal Sample.as_alice Sample.alice
  /\ User.is_member Sample.alice = false
  /\ snd (run GET_create_message Sample.as_alice)
     = Returned (redirect "/become-member")
  /\ snd (run (POST_create_message body) Sample.as_alice)
     = Returned (send 403 "Only members can create messages.")
  /\ db (fst (run (POST_create_message body) Sample.as_alice))
     = Sample.database.
Proof.
  cbv zeta.
  pose proof (create_message_non_member Sample.env Sample.bcrypt_hash
                Sample.bcrypt_compare Sample.isEmail Sample.normalizeEmail 100
                (MessageBody.mk (JS.Str "Title") (JS.Str "Text"))
                Sample.as_alice Sample.alice principal_as_alice eq_refl)
    as [Hget [Hpost [_ Hdb]]].
  split; [exact principal_as_alice|]. split; [reflexivity|].
  split; [rewrite Hget; reflexivity|].
  split; [rewrite Hpost; reflexivity | exact Hdb].
Defined.

Lemma database_admin_implies_member : admin_implies_member Sample.database.
Proof.
  intros u Hin Hadmin. simpl in Hin.
  destruct Hin as [<-|[<-|[<-|[]]]]; [discriminate | reflexivity | reflexivity].
Qed.

(** Dora registers with the admin code. *)
Lemma admin_implies_member_preserved_witness :
  let dora :=
    RegisterBody.mk (JS.Str "Dora") (JS.Str "Dale") (JS.Str "dora")
      (JS.Str "dora@x.com") (JS.Str "Passw0rd") (JS.Str "Passw0rd")
      (JS.Str "crown") in
  admin_implies_member Sample.database
  /\ admin_implies_member
       (db (fst (app Sample.env Sample.bcrypt_hash Sample.bcrypt_compare
                     Sample.isEmail Sample.normalizeEmail 100
                     (POST_register dora) Sample.anonymous))).
Proof.
  cbv zeta. split; [exact database_admin_implies_member|].
  apply (admin_implies_member_preserved Sample.env Sample.bcrypt_hash
           Sample.bcrypt_compare Sample.isEmail Sample.normalizeEmail).
  exact database_admin_implies_member.
Defined.

(** A second Alice registers. *)
Lemma register_duplicate_conflict_witness :
  let again :=
    RegisterBody.mk (JS.Str "Alice") (JS.Str "Again") (JS.Str " alice ")
      (JS.Str "other@x.com") (JS.Str "Passw0rd") (JS.Str "Passw0rd")
      JS.Undefined in
  let out := app Sample.env Sample.bcrypt_hash Sample.bcrypt_compare
               Sample.isEmail Sample.normalizeEmail 100
               (POST_register again) Sample.anonymous in
  In Sample.alice (Prisma.users Sample.database)
  /\ User.username Sample.alice = JS.trim " alice "
  /\ snd (Chains.register Sample.isEmail Sample.normalizeEmail again) = []
  /\ db (fst out) = Sample.database
  /\ snd out = Returned (redirect "/register").
Proof.
  cbv zeta.
  pose proof (register_duplicate_conflict Sample.env Sample.bcrypt_hash
                Sample.bcrypt_compare Sample.isEmail Sample.normalizeEmail 100
                (RegisterBody.mk (JS.Str "Alice") (JS.Str "Again")
                   (JS.Str " alice ") (JS.Str "other@x.com")
                   (JS.Str "Passw0rd") (JS.Str "Passw0rd") JS.Undefined)
                Sample.anonymous Sample.alice
                (or_introl eq_refl) (or_introl eq_refl))
    as [Hdb Hconflict].
  split; [left; reflexivity|]. split; [reflexivity|]. split; [reflexivity|].
  split; [exact Hdb|].
  rewrite (Hconflict eq_refl "other@x.com" eq_refl). reflexivity.
Defined.

(** Bob, a member already, sends the code once more. *)
Lemma promotion_idempotent_witness :
  let run := app Sample.env Sample.bcrypt_hash Sample.bcrypt_compare
               Sample.isEmail Sample.normalizeEmail 100 in
  let body := MemberBody.mk (JS.Str "abc") in
  principal Sample.as_bob Sample.bob
  /\ User.is_member Sample.bob = true
  /\ run (POST_become_member body) Sample.as_bob
     = (mkReq Sample.database (Some 2) (Some Sample.bob)
          [("successMessage",
            Text "Congratulations! You are now a full member.")],
        Returned (redirect "/messages"))
  /\ snd (run (POST_become_member body)
            (fst (run (POST_become_member body) Sample.as_alice)))
     = Returned (redirect "/messages").
Proof.
  cbv zeta. split; [exact principal_as_bob|]. split; [reflexivity|]. split.
  - exact (proj1 (promotion_idempotent Sample.env Sample.bcrypt_hash
                    Sample.bcrypt_compare Sample.isEmail Sample.normalizeEmail
                    100 (MemberBody.mk (JS.Str "abc")) Sample.as_bob Sample.bob
                    principal_as_bob eq_refl eq_refl) eq_refl).
  - exact (proj1 (proj2 (promotion_idempotent Sample.env Sample.bcrypt_hash
                    Sample.bcrypt_compare Sample.isEmail Sample.normalizeEmail
                    100 (MemberBody.mk (JS.Str "abc")) Sample.as_alice
                    Sample.alice principal_as_alice eq_refl eq_refl))).
Defined.



(** Carol, an admin, deletes [abc] and message 42; Alice deletes message 1. *)
Lemma delete_message_fails_softly_witness :
  let run := app Sample.env Sample.bcrypt_hash Sample.bcrypt_compare
               Sample.isEmail Sample.normalizeEmail 100 in
  principal Sample.as_carol Sample.carol
  /\ run (POST_delete_message "abc") Sample.as_carol
     = (mkReq Sample.database (Some 3) (Some Sample.carol)
          [("error", Text "Invalid message ID.")],
        Returned (redirect "/messages"))
  /\ run (POST_delete_message "42") Sample.as_carol
     = (mkReq Sample.database (Some 3) (Some Sample.carol)
          [("error", Text "Error deleting message.")],
        Returned (redirect "/messages"))
  /\ run (POST_delete_message "1") Sample.as_alice
     = (mkReq Sample.database (Some 1) (Some Sample.alice) [],
        Returned (send 403 "You are not authorized to delete messages.")).
Proof.
  cbv zeta. split; [exact principal_as_carol|]. split; [|split].
  - exact (proj1 (delete_message_fails_softly Sample.env Sample.bcrypt_hash
                    Sample.bcrypt_compare Sample.isEmail Sample.normalizeEmail
                    100 "abc" Sample.as_carol Sample.carol principal_as_carol)
             eq_refl eq_refl).
  - apply (proj1 (proj2 (delete_message_fails_softly Sample.env
                    Sample.bcrypt_hash Sample.bcrypt_compare Sample.isEmail
                    Sample.normalizeEmail 100 "42" Sample.as_carol Sample.carol
                    principal_as_carol)) eq_refl 42 eq_refl).
    intros m Hin. simpl in Hin. destruct Hin as [<-|[]]. discriminate.
  - exact (proj2 (proj2 (delete_message_fails_softly Sample.env
                    Sample.bcrypt_hash Sample.bcrypt_compare Sample.isEmail
                    Sample.normalizeEmail 100 "1" Sample.as_alice Sample.alice
                    principal_as_alice)) eq_refl).
Defined.


(** Bob posts a message with a padded title. *)
Lemma create_message_by_member_witness :
  let body := MessageBody.mk (JS.Str " Hi ") (JS.Str "there") in
  principal Sample.as_bob Sample.bob
  /\ User.is_member Sample.bob = true
  /\ app Sample.env Sample.bcrypt_hash Sample.bcrypt_compare Sample.isEmail
         Sample.normalizeEmail 100 (POST_create_message body) Sample.as_bob
     = (mkReq
          (Prisma.mkDB [Sample.alice; Sample.bob; Sample.carol]
             [Message.mk 1 "Hello" "First post" 50 2;
              Message.mk 2 "Hi" "there" 100 2] 3 2)
          (Some 2) (Some Sample.bob)
          [("successMessage", Text "Message created successfully!")],
        Returned (redirect "/messages")).
Proof.
  cbv zeta. split; [exact principal_as_bob|]. split; [reflexivity|].
  exact (proj2 (create_message_by_member Sample.env Sample.bcrypt_hash
                  Sample.bcrypt_compare Sample.isEmail Sample.normalizeEmail
                  100 (MessageBody.mk (JS.Str " Hi ") (JS.Str "there"))
                  Sample.as_bob Sample.bob principal_as_bob eq_refl)
           " Hi " "there" eq_refl eq_refl eq_refl eq_refl).
Defined.

(** * The rest of the application on the sample instances *)

Lemma anonymous_sample : anonymous Sample.anonymous.
Proof. intros u [id [Hs _]]. discriminate Hs. Defined.

Lemma sample_ids_distinct :
  NoDup (map User.id (Prisma.users Sample.database)).
Proof.
  repeat constructor; simpl; intros H;
    repeat (destruct H as [H|H]; [discriminate H|]); exact H.
Defined.

(** Dora registers with the admin code. *)
Lemma register_creates_user_witness :
  let dora :=
    RegisterBody.mk (JS.Str " Dora ") (JS.Str "Dale") (JS.Str "dora")
      (JS.Str "dora@x.com") (JS.Str "Passw0rd") (JS.Str "Passw0rd")
      (JS.Str "crown") in
  snd (Chains.register Sample.isEmail Sample.normalizeEmail dora) = []
  /\ Prisma.user_findFirst Sample.database "dora" "dora@x.com" = None
  /\ app Sample.env Sample.bcrypt_hash Sample.bcrypt_compare Sample.isEmail
         Sample.normalizeEmail 100 (POST_register dora) Sample.anonymous
     = (mkReq
          (Prisma.mkDB
             [Sample.alice; Sample.bob; Sample.carol;
              User.mk 4 "Dora" "Dale" "dora" "dora@x.com" "$2a$10$Passw0rd"
                true true]
             (Prisma.messages Sample.database) 4 1)
          None None
          [("success",
            Text "Registration successful! Please log in with your credentials.")],
        Returned (redirect "/login")).
Proof.
  cbv zeta. split; [reflexivity|]. split; [reflexivity|].
  destruct (register_creates_user Sample.env Sample.bcrypt_hash
              Sample.bcrypt_compare Sample.isEmail Sample.normalizeEmail 100
              (RegisterBody.mk (JS.Str " Dora ") (JS.Str "Dale")
                 (JS.Str "dora") (JS.Str "dora@x.com") (JS.Str "Passw0rd")
                 (JS.Str "Passw0rd") (JS.Str "crown"))
              Sample.anonymous "dora@x.com" eq_refl eq_refl eq_refl)
    as [p [Hp Hrun]].
  injection Hp as <-. exact Hrun.
Defined.

(** No admin code is configured, and Eve sends none. *)
Lemma register_without_admin_secret_witness :
  let env := mkEnv JS.Undefined (JS.Str "abc") in
  let eve :=
    RegisterBody.mk (JS.Str "Eve") (JS.Str "Eden") (JS.Str "eve")
      (JS.Str "eve@x.com") (JS.Str "Passw0rd") (JS.Str "Passw0rd")
      JS.Undefined in
  exists u,
    Prisma.users
      (db (fst (app env Sample.bcrypt_hash Sample.bcrypt_compare
                    Sample.isEmail Sample.normalizeEmail 100
                    (POST_register eve) Sample.anonymous)))
    = [Sample.alice; Sample.bob; Sample.carol; u]
    /\ User.username u = "eve"
    /\ User.is_admin u = true
    /\ User.is_member u = true.
Proof.
  cbv zeta.
  destruct (register_without_admin_secret (mkEnv JS.Undefined (JS.Str "abc"))
              Sample.bcrypt_hash Sample.bcrypt_compare Sample.isEmail
              Sample.normalizeEmail 100
              (RegisterBody.mk (JS.Str "Eve") (JS.Str "Eden") (JS.Str "eve")
                 (JS.Str "eve@x.com") (JS.Str "Passw0rd") (JS.Str "Passw0rd")
                 JS.Undefined)
              Sample.anonymous "eve@x.com" eq_refl eq_refl eq_refl eq_refl)
    as [u [Husers [Hname [Hadmin _]]]].
  exists u. split; [exact Husers|]. split; [exact Hname|].
  exact (Hadmin eq_refl).
Defined.

(** Alice logs in with her e-mail and comes back. *)
Lemma login_then_principal_witness :
  let body := LoginBody.mk (JS.Str " alice@x.com ") (JS.Str "Secret1") in
  let out := app Sample.env Sample.bcrypt_hash Sample.bcrypt_compare
               Sample.isEmail Sample.normalizeEmail 100 (POST_login body)
               Sample.anonymous in
  NoDup (map User.id (Prisma.users Sample.database))
  /\ snd out = Returned (redirect "/messages")
  /\ principal (fst out) Sample.alice
  /\ deserializeUser (db (fst out)) (serializeUser Sample.alice)
     = Some Sample.alice.
Proof.
  cbv zeta. split; [exact sample_ids_distinct|].
  exact (login_then_principal Sample.env Sample.bcrypt_hash
           Sample.bcrypt_compare Sample.isEmail Sample.normalizeEmail 100
           (LoginBody.mk (JS.Str " alice@x.com ") (JS.Str "Secret1"))
           "Secret1" Sample.anonymous Sample.alice eq_refl eq_refl
           sample_ids_distinct eq_refl eq_refl).
Defined.

(** Nobody is logged in and the message list is asked for. *)
Lemma anonymous_is_sent_to_login_witness :
  anonymous Sample.anonymous
  /\ serve Sample.env Sample.bcrypt_hash Sample.bcrypt_compare Sample.isEmail
           Sample.normalizeEmail 100 (inr GET_messages) Sample.anonymous
     = (Sample.anonymous, Returned (plain (redirect "/login")))
  /\ serve Sample.env Sample.bcrypt_hash Sample.bcrypt_compare Sample.isEmail
           Sample.normalizeEmail 100 (inl (POST_delete_message "1"))
           Sample.anonymous
     = (Sample.anonymous, Returned (plain (redirect "/login"))).
Proof.
  split; [exact anonymous_sample|]. split.
  - exact (proj1 (anonymous_is_sent_to_login Sample.env Sample.bcrypt_hash
                    Sample.bcrypt_compare Sample.isEmail Sample.normalizeEmail
                    100 (inr GET_messages) Sample.anonymous anonymous_sample
                    eq_refl)).
  - exact (proj1 (anonymous_is_sent_to_login Sample.env Sample.bcrypt_hash
                    Sample.bcrypt_compare Sample.isEmail Sample.normalizeEmail
                    100 (inl (POST_delete_message "1")) Sample.anonymous
                    anonymous_sample eq_refl)).
Defined.

(** Carol deletes Bob's message. *)
Lemma message_removed_only_by_admin_witness :
  let hello := Message.mk 1 "Hello" "First post" 50 2 in
  let out := serve Sample.env Sample.bcrypt_hash Sample.bcrypt_compare
               Sample.isEmail Sample.normalizeEmail 100
               (inl (POST_delete_message "1")) Sample.as_carol in
  In hello (Prisma.messages Sample.database)
  /\ Prisma.messages (db (fst out)) = []
  /\ exists id u,
       @inl Request PageRequest (POST_delete_message "1")
       = inl (POST_delete_message id)
       /\ principal Sample.as_carol u
       /\ User.is_admin u = true
       /\ JS.parseInt id = Some 1.
Proof.
  cbv zeta. split; [left; reflexivity|]. split; [reflexivity|].
  apply (message_removed_only_by_admin Sample.env Sample.bcrypt_hash
           Sample.bcrypt_compare Sample.isEmail Sample.normalizeEmail 100
           (inl (POST_delete_message "1")) Sample.as_carol
           (Message.mk 1 "Hello" "First post" 50 2)).
  - left. reflexivity.
  - intros H. exact H.
Defined.

(** Bob posts a message. *)
Lemma message_added_only_by_member_witness :
  let body := MessageBody.mk (JS.Str " Hi ") (JS.Str "there") in
  let hi := Message.mk 2 "Hi" "there" 100 2 in
  let out := serve Sample.env Sample.bcrypt_hash Sample.bcrypt_compare
               Sample.isEmail Sample.normalizeEmail 100
               (inl (POST_create_message body)) Sample.as_bob in
  In hi (Prisma.messages (db (fst out)))
  /\ exists body' u title text,
       @inl Request PageRequest (POST_create_message body)
       = inl (POST_create_message body')
       /\ principal Sample.as_bob u
       /\ User.is_member u = true
       /\ MessageBody.title body' = JS.Str title
       /\ MessageBody.text body' = JS.Str text
       /\ hi = Message.mk 2 (JS.trim title) (JS.trim text) 100 (User.id u).
Proof.
  cbv zeta. split; [right; left; reflexivity|].
  apply (message_added_only_by_member Sample.env Sample.bcrypt_hash
           Sample.bcrypt_compare Sample.isEmail Sample.normalizeEmail 100
           (inl (POST_create_message
                   (MessageBody.mk (JS.Str " Hi ") (JS.Str "there"))))
           Sample.as_bob (Message.mk 2 "Hi" "there" 100 2)).
  - right. left. reflexivity.
  - intros [H|[]]. discriminate H.
Defined.

(** Carol, who wrote nothing, deletes message 1, which Bob wrote. *)
Lemma admin_deletes_any_message_witness :
  let out := app Sample.env Sample.bcrypt_hash Sample.bcrypt_compare
               Sample.isEmail Sample.normalizeEmail 100
               (POST_delete_message "1") Sample.as_carol in
  principal Sample.as_carol Sample.carol
  /\ map Message.author_id (Prisma.messages Sample.database) = [2]
  /\ snd out = Returned (redirect "/messages")
  /\ flash (fst out)
     = [("successMessage", Text "Message deleted successfully.")]
  /\ (forall m, In m (Prisma.messages (db (fst out)))
                <-> In m (Prisma.messages Sample.database) /\ Message.id m <> 1).
Proof.
  cbv zeta. split; [exact principal_as_carol|]. split; [reflexivity|].
  destruct (admin_deletes_any_message Sample.env Sample.bcrypt_hash
              Sample.bcrypt_compare Sample.isEmail Sample.normalizeEmail 100
              "1" Sample.as_carol Sample.carol 1 principal_as_carol eq_refl
              eq_refl
              (ex_intro _ (Message.mk 1 "Hello" "First post" 50 2)
                 (conj (or_introl eq_refl) eq_refl)))
    as [Hr [Hf [Hm _]]].
  split; [exact Hr|]. split; [exact Hf | exact Hm].
Defined.

(** The id [1abc] is read as [1]. *)
Lemma delete_message_reads_leading_digits_witness :
  JS.parseInt "1abc" = Some 1
  /\ app Sample.env Sample.bcrypt_hash Sample.bcrypt_compare Sample.isEmail
         Sample.normalizeEmail 100 (POST_delete_message "1abc") Sample.as_carol
     = app Sample.env Sample.bcrypt_hash Sample.bcrypt_compare Sample.isEmail
           Sample.normalizeEmail 100 (POST_delete_message "1") Sample.as_carol.
Proof.
  split; [reflexivity|].
  exact (proj2 (delete_message_reads_leading_digits Sample.env
                  Sample.bcrypt_hash Sample.bcrypt_compare Sample.isEmail
                  Sample.normalizeEmail 100 "1" "abc" Sample.as_carol
                  eq_refl eq_refl eq_refl)).
Defined.

(** Alice is promoted; Bob and Carol are as they were. *)
Lemma promotion_changes_only_the_principal_witness :
  let out := app Sample.env Sample.bcrypt_hash Sample.bcrypt_compare
               Sample.isEmail Sample.normalizeEmail 100
               (POST_become_member (MemberBody.mk (JS.Str "abc")))
               Sample.as_alice in
  principal Sample.as_alice Sample.alice
  /\ In Sample.bob (Prisma.users (db (fst out)))
  /\ In Sample.carol (Prisma.users (db (fst out)))
  /\ map User.is_admin (Prisma.users (db (fst out))) = [false; false; true]
  /\ principal (fst out) (User.set_is_member true Sample.alice).
Proof.
  cbv zeta.
  destruct (promotion_changes_only_the_principal Sample.env Sample.bcrypt_hash
              Sample.bcrypt_compare Sample.isEmail Sample.normalizeEmail 100
              (MemberBody.mk (JS.Str "abc")) Sample.as_alice Sample.alice
              principal_as_alice eq_refl eq_refl)
    as [Hothers [Hadmin [_ Hp]]].
  split; [exact principal_as_alice|]. split; [|split; [|split]].
  - apply (Hothers Sample.bob); [right; left; reflexivity | discriminate].
  - apply (Hothers Sample.carol);
      [right; right; left; reflexivity | discriminate].
  - exact Hadmin.
  - exact Hp.
Defined.

(** Carol opens the board: three messages, written at 50, 90 and 70. *)
Lemma messages_are_listed_newest_first_witness :
  principal Board.as_carol Sample.carol
  /\ exists views,
       snd (serve Sample.env Sample.bcrypt_hash Sample.bcrypt_compare
                  Sample.isEmail Sample.normalizeEmail 100 (inr GET_messages)
                  Board.as_carol)
       = Returned
           (page "dashboard"
              [("title", L_value (JS.Str "Messages"));
               ("messages", L_messages views);
               ("successMessage", L_flashed []);
               ("error", L_flashed [])])
       /\ Permutation views
            (map (view_of Board.database Sample.carol) Board.messages)
       /\ StronglySorted newest_first views.
Proof.
  assert (Hp : principal Board.as_carol Sample.carol)
    by (exists 3; split; reflexivity).
  split; [exact Hp|].
  destruct (messages_are_listed_newest_first Sample.env Sample.bcrypt_hash
              Sample.bcrypt_compare Sample.isEmail Sample.normalizeEmail 100
              Board.as_carol Sample.carol Hp) as [views [Hrun [Hperm Hsorted]]].
  exists views. split; [rewrite Hrun; reflexivity|].
  split; [exact Hperm | exact Hsorted].
Defined.

(** The login page after a failed login and a registration: the error is
    in the session, and the page gets none. *)
Lemma pages_get_no_flashed_errors_witness :
  let out := serve Sample.env Sample.bcrypt_hash Sample.bcrypt_compare
               Sample.isEmail Sample.normalizeEmail 100 (inr GET_login)
               Board.flashed in
  res_locals_error Board.flashed = [Text "Invalid password"]
  /\ snd out
     = Returned
         (page "login"
            [("title", L_value (JS.Str "Login"));
             ("successMessage",
              L_flashed
                [Text "Registration successful! Please log in with your credentials."]);
             ("error", L_flashed [])])
  /\ (forall msgs,
      In ("error", L_flashed msgs)
         [("title", L_value (JS.Str "Login"));
          ("successMessage",
           L_flashed
             [Text "Registration successful! Please log in with your credentials."]);
          ("error", L_flashed [])] ->
      msgs = []).
Proof.
  cbv zeta. split; [reflexivity|]. split; [reflexivity|].
  exact (proj1 (pages_get_no_flashed_errors Sample.env Sample.bcrypt_hash
                  Sample.bcrypt_compare Sample.isEmail Sample.normalizeEmail
                  100 GET_login Board.flashed "login" _ eq_refl)).
Defined.

(** A second Alice registers and is sent back with her form. *)
Lemma failed_registration_hands_back_the_form_witness :
  let again :=
    RegisterBody.mk (JS.Str "Alice") (JS.Str "Again") (JS.Str "alice")
      (JS.Str "other@x.com") (JS.Str "Passw0rd") (JS.Str "Passw0rd")
      JS.Undefined in
  let run := serve Sample.env Sample.bcrypt_hash Sample.bcrypt_compare
               Sample.isEmail Sample.normalizeEmail 100 in
  snd (run (inl (POST_register again)) Sample.anonymous)
    = Returned (plain (redirect "/register"))
  /\ snd (run (inr GET_register)
            (fst (run (inl (POST_register again)) Sample.anonymous)))
     = Returned
         (page "register"
            [("title", L_value (JS.Str "Register"));
             ("error", L_flashed []);
             ("formData", L_form (Some (FormData again)))])
  /\ RegisterBody.password again = JS.Str "Passw0rd".
Proof.
  cbv zeta. split; [reflexivity|]. split; [|reflexivity].
  exact (proj2 (proj2 (proj2 (proj2
           (failed_registration_hands_back_the_form Sample.env
              Sample.bcrypt_hash Sample.bcrypt_compare Sample.isEmail
              Sample.normalizeEmail 100
              (RegisterBody.mk (JS.Str "Alice") (JS.Str "Again")
                 (JS.Str "alice") (JS.Str "other@x.com") (JS.Str "Passw0rd")
                 (JS.Str "Passw0rd") JS.Undefined)
              Sample.anonymous eq_refl eq_refl))))).
Defined.

(** C6, the claim as stated fails. Alice is stored. A registration with
    her username and a password of five characters is refused by the
    chain: the message is the chain's, not that the username exists. And
    with a valid form whose e-mail the normaliser answers [false] for, the
    message is the generic one. Neither creates a user. *)
Lemma duplicate_is_not_always_a_conflict :
  let short :=
    RegisterBody.mk (JS.Str "Alice") (JS.Str "Again") (JS.Str "alice")
      (JS.Str "other@x.com") (JS.Str "Pw0rd") (JS.Str "Pw0rd") JS.Undefined in
  let plus :=
    RegisterBody.mk (JS.Str "Alice") (JS.Str "Again") (JS.Str "alice")
      (JS.Str "+x@gmail.com") (JS.Str "Passw0rd") (JS.Str "Passw0rd")
      JS.Undefined in
  let refused :=
    app Sample.env Sample.bcrypt_hash Sample.bcrypt_compare Sample.isEmail
        Sample.normalizeEmail 100 (POST_register short) Sample.anonymous in
  let thrown :=
    app Sample.env Sample.bcrypt_hash Sample.bcrypt_compare Sample.isEmail
        Board.normalizeEmail 100 (POST_register plus) Sample.anonymous in
  In Sample.alice (Prisma.users Sample.database)
  /\ User.username Sample.alice
     = JS.trim (JS.toString (RegisterBody.username short))
  /\ flash (fst refused)
     = [("error", Text "Password must be at least 6 characters long");
        ("formData", FormData short)]
  /\ snd refused = Returned (redirect "/register")
  /\ db (fst refused) = Sample.database
  /\ snd (Chains.register Sample.isEmail Board.normalizeEmail plus) = []
  /\ flash (fst thrown)
     = [("error",
         Text "An error occurred during registration. Please try again.");
        ("formData",
         FormData
           (RegisterBody.mk (JS.Str "Alice") (JS.Str "Again") (JS.Str "alice")
              (JS.Bool false) (JS.Str "Passw0rd") (JS.Str "Passw0rd")
              JS.Undefined))]
  /\ snd thrown = Returned (redirect "/register")
  /\ db (fst thrown) = Sample.database.
Proof. cbv zeta. repeat split; try reflexivity. left. reflexivity. Qed.

(** C9, the claim as stated fails. [1abc] is no number, yet [parseInt]
    reads 1 from it: Carol's request deletes message 1 and flashes the
    success, not an error. *)
Lemma malformed_id_deletes_a_message :
  let out := app Sample.env Sample.bcrypt_hash Sample.bcrypt_compare
               Sample.isEmail Sample.normalizeEmail 100
               (POST_delete_message "1abc") Sample.as_carol in
  JS.forallb_string JS.is_digit "1abc" = false
  /\ principal Sample.as_carol Sample.carol
  /\ User.is_admin Sample.carol = true
  /\ map Message.id (Prisma.messages Sample.database) = [1]
  /\ Prisma.messages (db (fst out)) = []
  /\ flash (fst out)
     = [("successMessage", Text "Message deleted successfully.")]
  /\ snd out = Returned (redirect "/messages").
Proof.
  cbv zeta. split; [reflexivity|]. split; [exact principal_as_carol|].
  repeat split.
Qed.

(** The four answers: a short password, an e-mail that does not normalise,
    a username that is taken, and a new user. *)
Lemma register_outcomes_witness :
  let form username email password :=
    RegisterBody.mk (JS.Str "Alice") (JS.Str "Again") (JS.Str username)
      (JS.Str email) (JS.Str password) (JS.Str password) JS.Undefined in
  let run body :=
    app Sample.env Sample.bcrypt_hash Sample.bcrypt_compare Sample.isEmail
        Board.normalizeEmail 100 (POST_register body) Sample.anonymous in
  flash (fst (run (form "alice" "other@x.com" "Pw0rd")))
    = [("error", Text "Password must be at least 6 characters long");
       ("formData", FormData (form "alice" "other@x.com" "Pw0rd"))]
  /\ In ("error",
         Text "An error occurred during registration. Please try again.")
        (flash (fst (run (form "alice" "+x@gmail.com" "Passw0rd"))))
  /\ In ("error",
         Text "Username or email already exists. Please choose different ones.")
        (flash (fst (run (form "alice" "other@x.com" "Passw0rd"))))
  /\ snd (run (form "alicia" "other@x.com" "Passw0rd"))
     = Returned (redirect "/login").
Proof.
  cbv zeta.
  pose proof (register_outcomes Sample.env Sample.bcrypt_hash
                Sample.bcrypt_compare Sample.isEmail Board.normalizeEmail 100)
    as H.
  split; [|split; [|split]].
  - pose proof (H (RegisterBody.mk (JS.Str "Alice") (JS.Str "Again")
                     (JS.Str "alice") (JS.Str "other@x.com") (JS.Str "Pw0rd")
                     (JS.Str "Pw0rd") JS.Undefined) Sample.anonymous) as H1.
    cbv zeta in H1. cbn [snd] in H1. rewrite H1. reflexivity.
  - pose proof (H (RegisterBody.mk (JS.Str "Alice") (JS.Str "Again")
                     (JS.Str "alice") (JS.Str "+x@gmail.com")
                     (JS.Str "Passw0rd") (JS.Str "Passw0rd") JS.Undefined)
                  Sample.anonymous) as H2.
    cbv zeta in H2. rewrite H2. left. reflexivity.
  - pose proof (H (RegisterBody.mk (JS.Str "Alice") (JS.Str "Again")
                     (JS.Str "alice") (JS.Str "other@x.com")
                     (JS.Str "Passw0rd") (JS.Str "Passw0rd") JS.Undefined)
                  Sample.anonymous) as H3.
    cbv zeta in H3. destruct H3 as [[_ H3]|[Hno _]].
    + rewrite H3. left. reflexivity.
    + exfalso. exact (proj1 (Hno Sample.alice (or_introl eq_refl)) eq_refl).
  - pose proof (H (RegisterBody.mk (JS.Str "Alice") (JS.Str "Again")
                     (JS.Str "alicia") (JS.Str "other@x.com")
                     (JS.Str "Passw0rd") (JS.Str "Passw0rd") JS.Undefined)
                  Sample.anonymous) as H4.
    cbv zeta in H4. destruct H4 as [[[u [Hin Hdup]] _]|[_ [H4 _]]].
    + exfalso. simpl in Hin.
      destruct Hin as [<-|[<-|[<-|[]]]]; destruct Hdup as [Hd|Hd];
        vm_compute in Hd; discriminate Hd.
    + exact H4.
Defined.
